(** * ghostty-web: canvas renderer and keyboard input handler

    A shallow embedding of [CanvasRenderer] (lib/renderer.ts) and
    [InputHandler] (lib/input-handler.ts), and the properties of their
    frame and key-handling algorithms.

    Both classes are embedded as programs of one small state-and-exception
    monad: a method is a function from the state of the world it touches
    (its own fields, the collaborator it calls, and the log of the calls
    it makes on the DOM and on its callbacks) to an outcome and a new
    state.  A JavaScript exception keeps the state reached when it was
    raised, as in the source. *)

From Stdlib Require Import ZArith NArith List String Ascii Bool Lia FinFun.
Import ListNotations.

Set Implicit Arguments.

(* ===================================================================== *)
(** * JavaScript values and control *)
(* ===================================================================== *)

Module Js.

(** A JavaScript string is a sequence of UTF-16 code units; [length] is
    the [.length] of the source and [charCodeAt] reads one unit. *)
Definition code_unit := N.
Definition jsstring := list code_unit.

(** The code units of an ASCII literal of the source. *)
Definition lit (s : string) : jsstring :=
  map N_of_ascii (list_ascii_of_string s).

Definition charCodeAt (s : jsstring) (i : nat) : option code_unit :=
  nth_error s i.

(** [String.prototype.toLowerCase] on the ASCII range, the only range on
    which the source applies it. *)
Definition lower_unit (c : code_unit) : code_unit :=
  if ((65 <=? c) && (c <=? 90))%N then (c + 32)%N else c.

Definition toLowerCase (s : jsstring) : jsstring := map lower_unit s.

(** [lines[i]] on an array: [undefined] outside [0 .. length-1]. *)
Definition index {A : Type} (l : list A) (i : Z) : option A :=
  if (i <? 0)%Z then None else nth_error l (Z.to_nat i).

Inductive exn : Type :=
| TypeError (msg : string)
| EncoderError (msg : string).

Inductive outcome (A : Type) : Type :=
| Returned (a : A)
| Thrown (e : exn).
Arguments Thrown {A} e.

(** Computations over a world [W] that may throw. *)
Definition Eff (W A : Type) : Type := W -> outcome A * W.

Definition ret {W A} (a : A) : Eff W A := fun w => (Returned a, w).

Definition bind {W A B} (m : Eff W A) (k : A -> Eff W B) : Eff W B :=
  fun w =>
    match m w with
    | (Returned a, w') => k a w'
    | (Thrown e, w') => (Thrown e, w')
    end.

Definition throw {W A} (e : exn) : Eff W A := fun w => (Thrown e, w).

Definition gets {W A} (f : W -> A) : Eff W A := fun w => (Returned (f w), w).

Definition modify {W} (f : W -> W) : Eff W unit := fun w => (Returned tt, f w).

(** [try { body } catch (error) { handler }]. *)
Definition try_catch {W A} (body : Eff W A) (handler : exn -> Eff W A) : Eff W A :=
  fun w =>
    match body w with
    | (Returned a, w') => (Returned a, w')
    | (Thrown e, w') => handler e w'
    end.

(** [if (c) { m }] with no else branch. *)
Definition when {W} (c : bool) (m : Eff W unit) : Eff W unit :=
  if c then m else ret tt.

(** [for (const x of xs) { body(x) }]. *)
Fixpoint for_each {W A} (xs : list A) (body : A -> Eff W unit) : Eff W unit :=
  match xs with
  | [] => ret tt
  | x :: rest => bind (body x) (fun _ => for_each rest body)
  end.

(** [for (let i = 0; i < n; i++)]: the indices visited. *)
Definition range (n : nat) : list Z := map Z.of_nat (seq 0 n).

End Js.

Import Js.

Declare Scope eff_scope.
Delimit Scope eff_scope with eff.
Notation "x <- m ;; k" := (bind m (fun x => k))
  (at level 61, m at next level, right associativity) : eff_scope.
Notation "m ;; k" := (bind m (fun _ => k))
  (at level 61, right associativity) : eff_scope.
Local Open Scope eff_scope.

(* ===================================================================== *)
(** * lib/types.ts: keys and modifiers *)
(* ===================================================================== *)

(** Modelled from the spec: the [Mods] enum of lib/types.ts, which is not
    part of the sources at hand.  The spec describes the modifier set as
    "a bit flag union of {none, shift, ctrl, alt, super}"; the flags are
    given one bit each, in that order. *)
Module Mods.
Definition t := Z.
Definition NONE : t := 0%Z.
Definition SHIFT : t := 1%Z.
Definition CTRL : t := 2%Z.
Definition ALT : t := 4%Z.
Definition SUPER : t := 8%Z.
End Mods.

(** Modelled from the spec: the [Key] enum of lib/types.ts ("a logical key
    code"), with one member for each name that [KEY_MAP] refers to. *)
Module Key.
Inductive t : Set :=
| A | B | C | D | E | F | G | H | I | J | K | L | M
| N | O | P | Q | R | S | T | U | V | W | X | Y | Z
| ONE | TWO | THREE | FOUR | FIVE | SIX | SEVEN | EIGHT | NINE | ZERO
| ENTER | ESCAPE | BACKSPACE | TAB | SPACE
| MINUS | EQUAL | BRACKET_LEFT | BRACKET_RIGHT | BACKSLASH | SEMICOLON
| QUOTE | GRAVE | COMMA | PERIOD | SLASH
| CAPS_LOCK
| F1 | F2 | F3 | F4 | F5 | F6 | F7 | F8 | F9 | F10 | F11 | F12
| PRINT_SCREEN | SCROLL_LOCK | PAUSE | INSERT | HOME | PAGE_UP
| DELETE | END | PAGE_DOWN
| RIGHT | LEFT | DOWN | UP
| NUM_LOCK | KP_DIVIDE | KP_MULTIPLY | KP_MINUS | KP_PLUS | KP_ENTER
| KP_1 | KP_2 | KP_3 | KP_4 | KP_5 | KP_6 | KP_7 | KP_8 | KP_9 | KP_0
| KP_PERIOD
| NON_US_BACKSLASH | APPLICATION
| F13 | F14 | F15 | F16 | F17 | F18 | F19 | F20 | F21 | F22 | F23 | F24.
End Key.

Module KeyAction.
Inductive t : Set := RELEASE | PRESS | REPEAT.
End KeyAction.

(* ===================================================================== *)
(** * lib/input-handler.ts *)
(* ===================================================================== *)

Module InputHandler.

(** The fields of a DOM [KeyboardEvent] that the handler reads. *)
Record KeyboardEvent : Type := {
  code : string;
  key : jsstring;
  ctrlKey : bool;
  altKey : bool;
  shiftKey : bool;
  metaKey : bool
}.

Record DataTransfer : Type := {
  getData : string -> jsstring
}.

Record ClipboardEvent : Type := {
  clipboardData : option DataTransfer
}.

(** The argument of [KeyEncoder.encode]. *)
Record EncodeRequest : Type := {
  action : KeyAction.t;
  req_key : Key.t;
  mods : Mods.t;
  utf8 : option jsstring
}.

(** What the handler does to the outside: calls of its callbacks, of the
    event's methods, of the console and of the container. *)
Inductive effect : Type :=
| OnKey (k : jsstring)
| CustomKeyEventHandler
| OnData (data : jsstring)
| OnBell
| PreventDefault
| StopPropagation
| ConsoleWarn (msg : string)
| SetAttribute (name value : string)
| AddEventListener (type : string)
| RemoveEventListener (type : string).

(** The bound methods that [attach] registers on the container. *)
Inductive listener : Set := HandleKeyDown | HandlePaste.

(** The private fields of the class.  The data, bell and raw-key callbacks
    are opaque functions of the embedder: a call of one is an [effect].
    [onKeyCallback] records whether the optional one was given.  The custom
    handler is kept with its verdict on each event.  The encoder is the
    [KeyEncoder] made by the Ghostty instance: it returns bytes or throws. *)
Record t : Type := {
  encoder : EncodeRequest -> outcome (list Init.Byte.byte);
  onKeyCallback : bool;
  customKeyEventHandler : option (KeyboardEvent -> bool);
  keydownListener : option listener;
  keypressListener : option listener;
  pasteListener : option listener;
  isDisposed : bool
}.

(** The container element: whether it has a [tabindex], and the listeners
    registered on it, by event type. *)
Record Container : Type := {
  tabindex : bool;
  listeners : list (string * listener)
}.

Record World : Type := {
  this : t;
  container : Container;
  log : list effect
}.

Definition emit (e : effect) : Eff World unit :=
  modify (fun w => {| this := this w; container := container w; log := log w ++ [e] |}).

Definition set_this (f : t -> t) : Eff World unit :=
  modify (fun w => {| this := f (this w); container := container w; log := log w |}).

Definition set_container (f : Container -> Container) : Eff World unit :=
  modify (fun w => {| this := this w; container := f (container w); log := log w |}).

(** [KEY_MAP]: from [KeyboardEvent.code] to [Key]. *)
Definition KEY_MAP : list (string * Key.t) := [
  ("KeyA", Key.A); ("KeyB", Key.B); ("KeyC", Key.C); ("KeyD", Key.D);
  ("KeyE", Key.E); ("KeyF", Key.F); ("KeyG", Key.G); ("KeyH", Key.H);
  ("KeyI", Key.I); ("KeyJ", Key.J); ("KeyK", Key.K); ("KeyL", Key.L);
  ("KeyM", Key.M); ("KeyN", Key.N); ("KeyO", Key.O); ("KeyP", Key.P);
  ("KeyQ", Key.Q); ("KeyR", Key.R); ("KeyS", Key.S); ("KeyT", Key.T);
  ("KeyU", Key.U); ("KeyV", Key.V); ("KeyW", Key.W); ("KeyX", Key.X);
  ("KeyY", Key.Y); ("KeyZ", Key.Z);
  ("Digit1", Key.ONE); ("Digit2", Key.TWO); ("Digit3", Key.THREE);
  ("Digit4", Key.FOUR); ("Digit5", Key.FIVE); ("Digit6", Key.SIX);
  ("Digit7", Key.SEVEN); ("Digit8", Key.EIGHT); ("Digit9", Key.NINE);
  ("Digit0", Key.ZERO);
  ("Enter", Key.ENTER); ("Escape", Key.ESCAPE); ("Backspace", Key.BACKSPACE);
  ("Tab", Key.TAB); ("Space", Key.SPACE);
  ("Minus", Key.MINUS); ("Equal", Key.EQUAL);
  ("BracketLeft", Key.BRACKET_LEFT); ("BracketRight", Key.BRACKET_RIGHT);
  ("Backslash", Key.BACKSLASH); ("Semicolon", Key.SEMICOLON);
  ("Quote", Key.QUOTE); ("Backquote", Key.GRAVE); ("Comma", Key.COMMA);
  ("Period", Key.PERIOD); ("Slash", Key.SLASH);
  ("CapsLock", Key.CAPS_LOCK);
  ("F1", Key.F1); ("F2", Key.F2); ("F3", Key.F3); ("F4", Key.F4);
  ("F5", Key.F5); ("F6", Key.F6); ("F7", Key.F7); ("F8", Key.F8);
  ("F9", Key.F9); ("F10", Key.F10); ("F11", Key.F11); ("F12", Key.F12);
  ("PrintScreen", Key.PRINT_SCREEN); ("ScrollLock", Key.SCROLL_LOCK);
  ("Pause", Key.PAUSE); ("Insert", Key.INSERT); ("Home", Key.HOME);
  ("PageUp", Key.PAGE_UP); ("Delete", Key.DELETE); ("End", Key.END);
  ("PageDown", Key.PAGE_DOWN);
  ("ArrowRight", Key.RIGHT); ("ArrowLeft", Key.LEFT);
  ("ArrowDown", Key.DOWN); ("ArrowUp", Key.UP);
  ("NumLock", Key.NUM_LOCK); ("NumpadDivide", Key.KP_DIVIDE);
  ("NumpadMultiply", Key.KP_MULTIPLY); ("NumpadSubtract", Key.KP_MINUS);
  ("NumpadAdd", Key.KP_PLUS); ("NumpadEnter", Key.KP_ENTER);
  ("Numpad1", Key.KP_1); ("Numpad2", Key.KP_2); ("Numpad3", Key.KP_3);
  ("Numpad4", Key.KP_4); ("Numpad5", Key.KP_5); ("Numpad6", Key.KP_6);
  ("Numpad7", Key.KP_7); ("Numpad8", Key.KP_8); ("Numpad9", Key.KP_9);
  ("Numpad0", Key.KP_0); ("NumpadDecimal", Key.KP_PERIOD);
  ("IntlBackslash", Key.NON_US_BACKSLASH); ("ContextMenu", Key.APPLICATION);
  ("F13", Key.F13); ("F14", Key.F14); ("F15", Key.F15); ("F16", Key.F16);
  ("F17", Key.F17); ("F18", Key.F18); ("F19", Key.F19); ("F20", Key.F20);
  ("F21", Key.F21); ("F22", Key.F22); ("F23", Key.F23); ("F24", Key.F24)
]%string.

(** [KEY_MAP[code]] on the table's own entries. *)
Fixpoint lookup (table : list (string * Key.t)) (c : string) : option Key.t :=
  match table with
  | [] => None
  | (name, k) :: rest => if String.eqb name c then Some k else lookup rest c
  end.

(** [mapKeyCode]: [KEY_MAP[code] ?? null], on the codes that are not names
    inherited from [Object.prototype] ([toString], [constructor], ...); for
    those the source gets the inherited member, which is no key of the
    table. *)
Definition mapKeyCode (c : string) : option Key.t := lookup KEY_MAP c.

(** [extractModifiers]: [mods |= Mods.X] for each flag of the event. *)
Definition extractModifiers (event : KeyboardEvent) : Mods.t :=
  let mods := Mods.NONE in
  let mods := if shiftKey event then Z.lor mods Mods.SHIFT else mods in
  let mods := if ctrlKey event then Z.lor mods Mods.CTRL else mods in
  let mods := if altKey event then Z.lor mods Mods.ALT else mods in
  let mods := if metaKey event then Z.lor mods Mods.SUPER else mods in
  mods.

(** [isPrintableCharacter]: the three early [return false], then
    [event.key.length === 1]. *)
Definition isPrintableCharacter (event : KeyboardEvent) : bool :=
  if ctrlKey event && negb (altKey event) then false
  else if altKey event && negb (ctrlKey event) then false
  else if metaKey event then false
  else Nat.eqb (List.length (key event)) 1.

Definition ESC : code_unit := 27%N.

(** The [switch (key)] of [handleKeyDown]: [simpleOutput] after it, [null]
    ([None]) when no case matches. *)
Definition simpleOutput (k : Key.t) : option jsstring :=
  match k with
  | Key.ENTER => Some [13%N]
  | Key.TAB => Some [9%N]
  | Key.BACKSPACE => Some [127%N]
  | Key.ESCAPE => Some [ESC]
  | Key.UP => Some (ESC :: lit "[A")
  | Key.DOWN => Some (ESC :: lit "[B")
  | Key.RIGHT => Some (ESC :: lit "[C")
  | Key.LEFT => Some (ESC :: lit "[D")
  | Key.HOME => Some (ESC :: lit "[H")
  | Key.END => Some (ESC :: lit "[F")
  | Key.INSERT => Some (ESC :: lit "[2~")
  | Key.DELETE => Some (ESC :: lit "[3~")
  | Key.PAGE_UP => Some (ESC :: lit "[5~")
  | Key.PAGE_DOWN => Some (ESC :: lit "[6~")
  | Key.F1 => Some (ESC :: lit "OP")
  | Key.F2 => Some (ESC :: lit "OQ")
  | Key.F3 => Some (ESC :: lit "OR")
  | Key.F4 => Some (ESC :: lit "OS")
  | Key.F5 => Some (ESC :: lit "[15~")
  | Key.F6 => Some (ESC :: lit "[17~")
  | Key.F7 => Some (ESC :: lit "[18~")
  | Key.F8 => Some (ESC :: lit "[19~")
  | Key.F9 => Some (ESC :: lit "[20~")
  | Key.F10 => Some (ESC :: lit "[21~")
  | Key.F11 => Some (ESC :: lit "[23~")
  | Key.F12 => Some (ESC :: lit "[24~")
  | _ => None
  end.

(** The [utf8] hint: the lower-cased key when it is one ASCII unit. *)
Definition utf8_hint (event : KeyboardEvent) : option jsstring :=
  match key event with
  | [c] => if (c <? 128)%N then Some (toLowerCase (key event)) else None
  | _ => None
  end.

Section WithPlatform.

(** [new TextDecoder().decode]: UTF-8 bytes to a string, a function of the
    platform. *)
Variable decode : list Init.Byte.byte -> jsstring.

(** The [try] block of [handleKeyDown]. *)
Definition encodeKey (event : KeyboardEvent) (k : Key.t) (m : Mods.t) : Eff World unit :=
  self <- gets this ;;
  let utf8 := utf8_hint event in
  encoded <- (fun w => (encoder self {| action := KeyAction.PRESS; req_key := k;
                                        mods := m; utf8 := utf8 |}, w)) ;;
  let data := decode encoded in
  emit PreventDefault ;;
  emit StopPropagation ;;
  when (Nat.ltb 0 (List.length data)) (emit (OnData data)).

(** [handleKeyDown]; each [return] of the source closes its branch. *)
Definition handleKeyDown (event : KeyboardEvent) : Eff World unit :=
  self <- gets this ;;
  if isDisposed self then ret tt else
  when (onKeyCallback self) (emit (OnKey (key event))) ;;
  handled <- match customKeyEventHandler self with
             | Some handler => emit CustomKeyEventHandler ;; ret (handler event)
             | None => ret false
             end ;;
  if handled then emit PreventDefault else
  if (ctrlKey event || metaKey event) && String.eqb (code event) "KeyV" then ret tt else
  if metaKey event && String.eqb (code event) "KeyC" then ret tt else
  if isPrintableCharacter event then
    emit PreventDefault ;; emit (OnData (key event))
  else
  match mapKeyCode (code event) with
  | None => ret tt
  | Some k =>
    let m := extractModifiers event in
    let simple :=
      if (m =? Mods.NONE)%Z || (m =? Mods.SHIFT)%Z then simpleOutput k else None in
    match simple with
    | Some out => emit PreventDefault ;; emit (OnData out)
    | None =>
      try_catch (encodeKey event k m)
                (fun error => emit (ConsoleWarn "Failed to encode key:"))
    end
  end.

End WithPlatform.

(** [handlePaste]. *)
Definition handlePaste (event : ClipboardEvent) : Eff World unit :=
  self <- gets this ;;
  if isDisposed self then ret tt else
  emit PreventDefault ;;
  emit StopPropagation ;;
  match clipboardData event with
  | None => emit (ConsoleWarn "No clipboard data available")
  | Some data =>
    let text := getData data "text/plain" in
    match text with
    | [] => emit (ConsoleWarn "No text in clipboard")
    | _ => emit (OnData text)
    end
  end.

(** [container.addEventListener(type, l)]. *)
Definition addEventListener (type : string) (l : listener) : Eff World unit :=
  emit (AddEventListener type) ;;
  set_container (fun c => {| tabindex := tabindex c;
                             listeners := listeners c ++ [(type, l)] |}).

Definition listener_eqb (a b : listener) : bool :=
  match a, b with
  | HandleKeyDown, HandleKeyDown | HandlePaste, HandlePaste => true
  | _, _ => false
  end.

(** Removal of the first registration of [l] for [type], if any. *)
Fixpoint remove_first (type : string) (l : listener) (ls : list (string * listener))
  : list (string * listener) :=
  match ls with
  | [] => []
  | (ty, l') :: rest =>
    if String.eqb ty type && listener_eqb l' l then rest
    else (ty, l') :: remove_first type l rest
  end.

(** [container.removeEventListener(type, l)]. *)
Definition removeEventListener (type : string) (l : listener) : Eff World unit :=
  emit (RemoveEventListener type) ;;
  set_container (fun c => {| tabindex := tabindex c;
                             listeners := remove_first type l (listeners c) |}).

(** [attach], on a browser container. *)
Definition attach : Eff World unit :=
  c <- gets container ;;
  when (negb (tabindex c))
       (emit (SetAttribute "tabindex" "0") ;;
        set_container (fun c => {| tabindex := true; listeners := listeners c |})) ;;
  set_this (fun h => {| encoder := encoder h; onKeyCallback := onKeyCallback h;
                        customKeyEventHandler := customKeyEventHandler h;
                        keydownListener := Some HandleKeyDown;
                        keypressListener := keypressListener h;
                        pasteListener := pasteListener h;
                        isDisposed := isDisposed h |}) ;;
  addEventListener "keydown" HandleKeyDown ;;
  set_this (fun h => {| encoder := encoder h; onKeyCallback := onKeyCallback h;
                        customKeyEventHandler := customKeyEventHandler h;
                        keydownListener := keydownListener h;
                        keypressListener := keypressListener h;
                        pasteListener := Some HandlePaste;
                        isDisposed := isDisposed h |}) ;;
  addEventListener "paste" HandlePaste.

(** The constructor: the fields' initial values, then [attach]. *)
Definition create (enc : EncodeRequest -> outcome (list Init.Byte.byte))
           (onKey : bool) (custom : option (KeyboardEvent -> bool))
           (c : Container) : World :=
  snd (attach {| this := {| encoder := enc; onKeyCallback := onKey;
                            customKeyEventHandler := custom;
                            keydownListener := None; keypressListener := None;
                            pasteListener := None; isDisposed := false |};
                 container := c; log := [] |}).

(** [setCustomKeyEventHandler]. *)
Definition setCustomKeyEventHandler (handler : KeyboardEvent -> bool) : Eff World unit :=
  set_this (fun h => {| encoder := encoder h; onKeyCallback := onKeyCallback h;
                        customKeyEventHandler := Some handler;
                        keydownListener := keydownListener h;
                        keypressListener := keypressListener h;
                        pasteListener := pasteListener h;
                        isDisposed := isDisposed h |}).

(** [dispose]. *)
Definition dispose : Eff World unit :=
  self <- gets this ;;
  if isDisposed self then ret tt else
  match keydownListener self with
  | Some l =>
    removeEventListener "keydown" l ;;
    set_this (fun h => {| encoder := encoder h; onKeyCallback := onKeyCallback h;
                          customKeyEventHandler := customKeyEventHandler h;
                          keydownListener := None;
                          keypressListener := keypressListener h;
                          pasteListener := pasteListener h;
                          isDisposed := isDisposed h |})
  | None => ret tt
  end ;;
  self <- gets this ;;
  match keypressListener self with
  | Some l =>
    removeEventListener "keypress" l ;;
    set_this (fun h => {| encoder := encoder h; onKeyCallback := onKeyCallback h;
                          customKeyEventHandler := customKeyEventHandler h;
                          keydownListener := keydownListener h;
                          keypressListener := None;
                          pasteListener := pasteListener h;
                          isDisposed := isDisposed h |})
  | None => ret tt
  end ;;
  self <- gets this ;;
  match pasteListener self with
  | Some l =>
    removeEventListener "paste" l ;;
    set_this (fun h => {| encoder := encoder h; onKeyCallback := onKeyCallback h;
                          customKeyEventHandler := customKeyEventHandler h;
                          keydownListener := keydownListener h;
                          keypressListener := keypressListener h;
                          pasteListener := None;
                          isDisposed := isDisposed h |})
  | None => ret tt
  end ;;
  set_this (fun h => {| encoder := encoder h; onKeyCallback := onKeyCallback h;
                        customKeyEventHandler := customKeyEventHandler h;
                        keydownListener := keydownListener h;
                        keypressListener := keypressListener h;
                        pasteListener := pasteListener h;
                        isDisposed := true |}).

(** [isActive]. *)
Definition isActive (h : t) : bool := negb (isDisposed h).

End InputHandler.

(* ===================================================================== *)
(** * lib/buffer.ts: what the renderer reads *)
(* ===================================================================== *)

(** Modelled from the spec: the [CellColor] of lib/buffer.ts, "a tagged
    variant — default, palette(index), rgb(r,g,b)". *)
Inductive CellColor : Type :=
| ColorDefault
| ColorPalette (index : Z)
| ColorRgb (r g b : Z).

(** Modelled from the spec: the [Cell] of lib/buffer.ts, "a display
    character, a CellColor for foreground and background, a style-flag set
    (bold, italic, underline, strikethrough, faint, invisible, inverse),
    and a display width". *)
Module Cell.
Record t : Type := {
  char : jsstring;
  fg : CellColor;
  bg : CellColor;
  bold : bool;
  italic : bool;
  underline : bool;
  strikethrough : bool;
  faint : bool;
  invisible : bool;
  inverse : bool;
  width : Z
}.
End Cell.

Module Cursor.
Record t : Type := { x : Z; y : Z; visible : bool }.
End Cursor.

Module Dimensions.
Record t : Type := { cols : Z; rows : Z }.
End Dimensions.

(** Modelled from the spec: the [ScreenBuffer] of lib/buffer.ts, through
    the five operations the renderer calls: "getAllLines() -> ordered
    sequence of line", "getCursor() -> {x, y, visible}", "getDimensions()
    -> {cols, rows}", "isDirty(lineIndex) -> bool" and "clearDirty()".  A
    dirty line is "a buffer row flagged by the state engine as changed
    since the last clear", so [clearDirty] leaves no line flagged. *)
Module ScreenBuffer.
Record t : Type := {
  getAllLines : list (list Cell.t);
  getCursor : Cursor.t;
  getDimensions : Dimensions.t;
  isDirty : Z -> bool
}.

Definition clearDirty (b : t) : t :=
  {| getAllLines := getAllLines b; getCursor := getCursor b;
     getDimensions := getDimensions b; isDirty := fun _ => false |}.
End ScreenBuffer.

(* ===================================================================== *)
(** * lib/renderer.ts *)
(* ===================================================================== *)

Module FontMetrics.
Record t : Type := { width : Z; height : Z; baseline : Z }.
End FontMetrics.

(** The backing store of the canvas element, in device pixels. *)
Module Canvas.
Record t : Type := { width : Z; height : Z }.
End Canvas.

Module Point.
Record t : Type := { x : Z; y : Z }.
End Point.

(** The interval timers of the window that run the blink callback of the
    renderer: the handles that are set and not yet cleared, and the next
    handle [setInterval] gives out. *)
Module Window.
Record t : Type := { timers : list nat; next : nat }.

Definition setInterval (w : t) : nat * t :=
  (next w, {| timers := timers w ++ [next w]; next := S (next w) |}).

Definition clearInterval (id : nat) (w : t) : t :=
  {| timers := filter (fun i => negb (Nat.eqb i id)) (timers w); next := next w |}.
End Window.

Module CanvasRenderer.

Local Open Scope Z_scope.

Inductive CursorStyle : Set := block | underline | bar.

Record RendererOptions : Type := {
  opt_cursorStyle : option CursorStyle;
  opt_cursorBlink : option bool;
  opt_devicePixelRatio : option Z
}.

(** The fields of the class that decide what a frame does.  The sizes are
    whole numbers of pixels, the pixel ratio a whole number.  The font
    size and family, the theme and the palette only choose the fonts and
    colours of the drawing calls, which the log below does not detail. *)
Record t : Type := {
  canvas : Canvas.t;
  cursorStyle : CursorStyle;
  cursorBlink : bool;
  devicePixelRatio : Z;
  metrics : FontMetrics.t;
  cursorVisible : bool;
  cursorBlinkInterval : option nat;
  lastCursorPosition : Point.t
}.

(** The calls a frame makes on the drawing context and on the buffer. *)
Inductive call : Type :=
| FillBackground (cssWidth cssHeight : Z)
| ClearLine (y cols : Z)
| DrawCell (cell : Cell.t) (x y : Z)
| DrawCursor (style : CursorStyle) (x y : Z)
| ClearDirty.

Record World : Type := {
  this : t;
  window : Window.t;
  buffer : ScreenBuffer.t;
  log : list call
}.

Definition emit (c : call) : Eff World unit :=
  modify (fun w => {| this := this w; window := window w; buffer := buffer w;
                      log := log w ++ [c] |}).

Definition set_this (f : t -> t) : Eff World unit :=
  modify (fun w => {| this := f (this w); window := window w; buffer := buffer w;
                      log := log w |}).

Definition set_canvas (c : Canvas.t) (r : t) : t :=
  {| canvas := c; cursorStyle := cursorStyle r; cursorBlink := cursorBlink r;
     devicePixelRatio := devicePixelRatio r; metrics := metrics r;
     cursorVisible := cursorVisible r; cursorBlinkInterval := cursorBlinkInterval r;
     lastCursorPosition := lastCursorPosition r |}.

Definition set_cursorStyle (s : CursorStyle) (r : t) : t :=
  {| canvas := canvas r; cursorStyle := s; cursorBlink := cursorBlink r;
     devicePixelRatio := devicePixelRatio r; metrics := metrics r;
     cursorVisible := cursorVisible r; cursorBlinkInterval := cursorBlinkInterval r;
     lastCursorPosition := lastCursorPosition r |}.

Definition set_cursorBlink (b : bool) (r : t) : t :=
  {| canvas := canvas r; cursorStyle := cursorStyle r; cursorBlink := b;
     devicePixelRatio := devicePixelRatio r; metrics := metrics r;
     cursorVisible := cursorVisible r; cursorBlinkInterval := cursorBlinkInterval r;
     lastCursorPosition := lastCursorPosition r |}.

Definition set_metrics (m : FontMetrics.t) (r : t) : t :=
  {| canvas := canvas r; cursorStyle := cursorStyle r; cursorBlink := cursorBlink r;
     devicePixelRatio := devicePixelRatio r; metrics := m;
     cursorVisible := cursorVisible r; cursorBlinkInterval := cursorBlinkInterval r;
     lastCursorPosition := lastCursorPosition r |}.

Definition set_cursorVisible (b : bool) (r : t) : t :=
  {| canvas := canvas r; cursorStyle := cursorStyle r; cursorBlink := cursorBlink r;
     devicePixelRatio := devicePixelRatio r; metrics := metrics r;
     cursorVisible := b; cursorBlinkInterval := cursorBlinkInterval r;
     lastCursorPosition := lastCursorPosition r |}.

Definition set_cursorBlinkInterval (i : option nat) (r : t) : t :=
  {| canvas := canvas r; cursorStyle := cursorStyle r; cursorBlink := cursorBlink r;
     devicePixelRatio := devicePixelRatio r; metrics := metrics r;
     cursorVisible := cursorVisible r; cursorBlinkInterval := i;
     lastCursorPosition := lastCursorPosition r |}.

Definition set_lastCursorPosition (p : Point.t) (r : t) : t :=
  {| canvas := canvas r; cursorStyle := cursorStyle r; cursorBlink := cursorBlink r;
     devicePixelRatio := devicePixelRatio r; metrics := metrics r;
     cursorVisible := cursorVisible r; cursorBlinkInterval := cursorBlinkInterval r;
     lastCursorPosition := p |}.

(** [resize]: the backing store takes the size of the grid, the context is
    rescaled and the background filled.  The device pixel ratio is a whole
    number here, so the canvas keeps the size it is given; a fractional
    size, which a canvas truncates, is not represented. *)
Definition resize (cols rows : Z) : Eff World unit :=
  self <- gets this ;;
  let cssWidth := cols * FontMetrics.width (metrics self) in
  let cssHeight := rows * FontMetrics.height (metrics self) in
  set_this (set_canvas {| Canvas.width := cssWidth * devicePixelRatio self;
                          Canvas.height := cssHeight * devicePixelRatio self |}) ;;
  emit (FillBackground cssWidth cssHeight).

(** [renderCell]: the background fill, the glyph and the decorations of one
    cell, as one entry of the log. *)
Definition renderCell (cell : Cell.t) (x y : Z) : Eff World unit :=
  emit (DrawCell cell x y).

(** [renderLine].  The band of the line is filled before the cells are
    read; reading [line.length] of [undefined] throws. *)
Definition renderLine (line : option (list Cell.t)) (y cols : Z) : Eff World unit :=
  emit (ClearLine y cols) ;;
  match line with
  | None => throw (TypeError "undefined is not an object (evaluating 'line.length')")
  | Some cells =>
    for_each (range (List.length cells)) (fun x =>
      match index cells x with
      | None => throw (TypeError "undefined is not an object (evaluating 'cell.width')")
      | Some cell =>
        if Cell.width cell =? 0 then ret tt else renderCell cell x y
      end)
  end.

(** [renderCursor]: one fill, whose shape the style chooses. *)
Definition renderCursor (x y : Z) : Eff World unit :=
  self <- gets this ;;
  emit (DrawCursor (cursorStyle self) x y).

(** The test that opens [render]. *)
Definition needsResize (self : t) (dims : Dimensions.t) : bool :=
  negb (Canvas.width (canvas self) =?
        Dimensions.cols dims * FontMetrics.width (metrics self) * devicePixelRatio self)
  || negb (Canvas.height (canvas self) =?
           Dimensions.rows dims * FontMetrics.height (metrics self) * devicePixelRatio self).

Definition cursorMoved (self : t) (cursor : Cursor.t) : bool :=
  negb (Cursor.x cursor =? Point.x (lastCursorPosition self))
  || negb (Cursor.y cursor =? Point.y (lastCursorPosition self)).

(** [buffer.clearDirty()]. *)
Definition clearDirty : Eff World unit :=
  emit ClearDirty ;;
  modify (fun w => {| this := this w; window := window w;
                      buffer := ScreenBuffer.clearDirty (buffer w); log := log w |}).

(** [render(buffer, forceAll)], on the buffer of the world. *)
Definition render (forceAll : bool) : Eff World unit :=
  buf <- gets buffer ;;
  let lines := ScreenBuffer.getAllLines buf in
  let cursor := ScreenBuffer.getCursor buf in
  let dims := ScreenBuffer.getDimensions buf in
  self <- gets this ;;
  forceAll <- (if needsResize self dims
               then resize (Dimensions.cols dims) (Dimensions.rows dims) ;; ret true
               else ret forceAll) ;;
  self <- gets this ;;
  let last := lastCursorPosition self in
  let moved := cursorMoved self cursor in
  when (moved || cursorBlink self)
    (when (negb forceAll && negb (ScreenBuffer.isDirty buf (Cursor.y cursor)))
       (renderLine (index lines (Cursor.y cursor)) (Cursor.y cursor) (Dimensions.cols dims)) ;;
     when (moved && negb (Point.y last =? Cursor.y cursor))
       (when (negb forceAll && negb (ScreenBuffer.isDirty buf (Point.y last)))
          (renderLine (index lines (Point.y last)) (Point.y last) (Dimensions.cols dims)))) ;;
  for_each (range (List.length lines)) (fun y =>
    if negb forceAll && negb (ScreenBuffer.isDirty buf y) then ret tt
    else renderLine (index lines y) y (Dimensions.cols dims)) ;;
  self <- gets this ;;
  when (Cursor.visible cursor && cursorVisible self)
    (renderCursor (Cursor.x cursor) (Cursor.y cursor)) ;;
  set_this (set_lastCursorPosition {| Point.x := Cursor.x cursor; Point.y := Cursor.y cursor |}) ;;
  when (negb forceAll) clearDirty.

(** [startCursorBlink]: the handle of a new interval timer is kept. *)
Definition startCursorBlink : Eff World unit :=
  modify (fun w =>
    let (id, win) := Window.setInterval (window w) in
    {| this := set_cursorBlinkInterval (Some id) (this w); window := win;
       buffer := buffer w; log := log w |}).

(** The callback of the interval timer [id]; a cleared timer does not
    fire. *)
Definition tick (id : nat) : Eff World unit :=
  win <- gets window ;;
  when (existsb (Nat.eqb id) (Window.timers win))
    (set_this (fun r => set_cursorVisible (negb (cursorVisible r)) r)).

(** [stopCursorBlink]. *)
Definition stopCursorBlink : Eff World unit :=
  self <- gets this ;;
  match cursorBlinkInterval self with
  | Some id =>
    modify (fun w => {| this := set_cursorBlinkInterval None (this w);
                        window := Window.clearInterval id (window w);
                        buffer := buffer w; log := log w |})
  | None => ret tt
  end ;;
  set_this (set_cursorVisible true).

(** [setCursorStyle]. *)
Definition setCursorStyle (style : CursorStyle) : Eff World unit :=
  set_this (set_cursorStyle style).

(** [setCursorBlink]. *)
Definition setCursorBlink (enabled : bool) : Eff World unit :=
  self <- gets this ;;
  if enabled && negb (cursorBlink self) then
    set_this (set_cursorBlink true) ;; startCursorBlink
  else if negb enabled && cursorBlink self then
    set_this (set_cursorBlink false) ;; stopCursorBlink
  else ret tt.

(** [remeasureFont], and the second statement of [setFontSize] and
    [setFontFamily]: the metrics become what the platform measures. *)
Definition remeasureFont (measured : FontMetrics.t) : Eff World unit :=
  set_this (set_metrics measured).

(** [clear]. *)
Definition clear : Eff World unit :=
  self <- gets this ;;
  emit (FillBackground (Canvas.width (canvas self)) (Canvas.height (canvas self))).

(** [dispose]. *)
Definition dispose : Eff World unit := stopCursorBlink.

(** The constructor, once the 2D context is acquired: the options with
    their defaults, the measured metrics, and the timer if blinking is
    asked for.  [dpr] is [window.devicePixelRatio ?? 1], [handle] the
    handle the window gives to the next timer, [buf] the buffer that the
    frames will be given. *)
Definition create (cv : Canvas.t) (options : RendererOptions)
           (dpr : Z) (measured : FontMetrics.t)
           (handle : nat) (buf : ScreenBuffer.t) : World :=
  let self :=
    {| canvas := cv;
       cursorStyle := match opt_cursorStyle options with Some s => s | None => block end;
       cursorBlink := match opt_cursorBlink options with Some b => b | None => false end;
       devicePixelRatio := match opt_devicePixelRatio options with Some d => d | None => dpr end;
       metrics := measured;
       cursorVisible := true;
       cursorBlinkInterval := None;
       lastCursorPosition := {| Point.x := 0; Point.y := 0 |} |} in
  let w := {| this := self;
              window := {| Window.timers := []; Window.next := handle |};
              buffer := buf; log := [] |} in
  if cursorBlink self then snd (startCursorBlink w) else w.

End CanvasRenderer.

(* ===================================================================== *)
(** * Running the input handler *)
(* ===================================================================== *)

Module InputSession.

Import InputHandler.

(** The verdict of the custom handler on an event, [false] without one. *)
Definition customHandled (h : InputHandler.t) (e : KeyboardEvent) : bool :=
  match customKeyEventHandler h with
  | Some handler => handler e
  | None => false
  end.

(** The calls that open every key-down on a live handler, whatever the
    key: the raw-key callback and the custom handler, when registered. *)
Definition prelude (h : InputHandler.t) (e : KeyboardEvent) : list effect :=
  (if onKeyCallback h then [OnKey (key e)] else [])
  ++ match customKeyEventHandler h with
     | Some _ => [CustomKeyEventHandler]
     | None => []
     end.

(** One call of a method on a handler [h] attached to [c]: its outcome and
    the effects it had. *)
Definition observe (m : Eff World unit) (h : InputHandler.t) (c : Container)
  : outcome unit * list effect :=
  let r := m {| this := h; container := c; log := [] |} in
  (fst r, log (snd r)).

Definition keydown (decode : list Init.Byte.byte -> jsstring)
           (h : InputHandler.t) (c : Container) (e : KeyboardEvent) :=
  observe (handleKeyDown decode e) h c.

Definition paste (h : InputHandler.t) (c : Container) (e : ClipboardEvent) :=
  observe (handlePaste e) h c.

Inductive dom_event : Type :=
| KeydownEvent (e : KeyboardEvent)
| PasteEvent (e : ClipboardEvent).

Definition event_type (ev : dom_event) : string :=
  match ev with
  | KeydownEvent _ => "keydown"
  | PasteEvent _ => "paste"
  end.

(** A call of a bound method with an event of its type. *)
Definition invoke (decode : list Init.Byte.byte -> jsstring)
           (l : listener) (ev : dom_event) : Eff World unit :=
  match l, ev with
  | HandleKeyDown, KeydownEvent e => handleKeyDown decode e
  | HandlePaste, PasteEvent e => handlePaste e
  | _, _ => ret tt
  end.

(** The container delivers an event to the listeners of its type, in the
    order of their registration. *)
Definition dispatchEvent (decode : list Init.Byte.byte -> jsstring)
           (ev : dom_event) : Eff World unit :=
  c <- gets container ;;
  for_each (filter (fun p => String.eqb (fst p) (event_type ev)) (listeners c))
           (fun p => invoke decode (snd p) ev).

(** What can happen to a handler during a session: the container delivers
    an event, a stale reference to a bound method is called with one, or
    the embedder calls a public method. *)
Inductive step : Type :=
| Deliver (ev : dom_event)
| Call (l : listener) (ev : dom_event)
| Dispose
| SetCustomKeyEventHandler (handler : KeyboardEvent -> bool).

Definition is_event (s : step) : bool :=
  match s with
  | Deliver _ | Call _ _ => true
  | _ => false
  end.

Definition exec (decode : list Init.Byte.byte -> jsstring) (s : step) : Eff World unit :=
  match s with
  | Deliver ev => dispatchEvent decode ev
  | Call l ev => invoke decode l ev
  | Dispose => dispose
  | SetCustomKeyEventHandler handler => setCustomKeyEventHandler handler
  end.

Definition run (decode : list Init.Byte.byte -> jsstring) (steps : list step)
  : Eff World unit :=
  for_each steps (exec decode).

(** The callbacks among the effects. *)
Definition is_callback (e : effect) : bool :=
  match e with
  | OnKey _ | CustomKeyEventHandler | OnData _ | OnBell => true
  | _ => false
  end.

(** ** Fixtures, after the mocks of the handler's unit tests *)

(** A decoder for ASCII bytes. *)
Definition ascii_decode (bytes : list Init.Byte.byte) : jsstring :=
  map (fun b => N.of_nat (Strings.Byte.to_nat b)) bytes.

Definition quiet_encoder (r : EncodeRequest) : outcome (list Init.Byte.byte) :=
  Returned [].

Definition failing_encoder (r : EncodeRequest) : outcome (list Init.Byte.byte) :=
  Thrown (EncoderError "unsupported key").

Definition mock_container : Container := {| tabindex := false; listeners := [] |}.

(** [new InputHandler(ghostty, container, onData, onBell)]. *)
Definition fresh (enc : EncodeRequest -> outcome (list Init.Byte.byte)) : World :=
  create enc false None mock_container.

(** [createKeyEvent(code, key, modifiers)]. *)
Definition createKeyEvent (c : string) (k : jsstring) (ctrl alt shift meta : bool)
  : KeyboardEvent :=
  {| code := c; key := k; ctrlKey := ctrl; altKey := alt; shiftKey := shift;
     metaKey := meta |}.

(** [createClipboardEvent(text)]. *)
Definition createClipboardEvent (text : option jsstring) : ClipboardEvent :=
  {| clipboardData :=
       match text with
       | Some t => Some {| getData := fun format =>
                             if String.eqb format "text/plain" then t else [] |}
       | None => None
       end |}.

End InputSession.

(* ===================================================================== *)
(** * Running the renderer *)
(* ===================================================================== *)

Module RenderSession.

Import CanvasRenderer.

Local Open Scope Z_scope.

(** The lines that a sequence of calls repaints: one for each call of
    [renderLine], in order. *)
Definition painted (calls : list call) : list Z :=
  flat_map (fun c => match c with ClearLine y _ => [y] | _ => [] end) calls.

Definition is_ClearDirty (c : call) : bool :=
  match c with ClearDirty => true | _ => false end.

Definition is_DrawCursor (c : call) : bool :=
  match c with DrawCursor _ _ _ => true | _ => false end.

Definition with_log (l : list call) (w : World) : World :=
  {| this := this w; window := window w; buffer := buffer w; log := l |}.

(** One frame from the world [w]: the outcome of [render], the calls it
    made, and the world it leaves. *)
Definition frame (forceAll : bool) (w : World) : outcome unit * list call * World :=
  let r := render forceAll (with_log [] w) in
  (fst r, log (snd r), with_log (log w ++ log (snd r)) (snd r)).

(** [y] is the index of a line of the snapshot. *)
Definition is_row (b : ScreenBuffer.t) (y : Z) : bool :=
  (0 <=? y) && (y <? Z.of_nat (List.length (ScreenBuffer.getAllLines b))).

(** The contract that the buffer keeps towards the renderer: the cursor is
    on a line of the grid and there is one line for each row. *)
Definition contract (b : ScreenBuffer.t) : bool :=
  is_row b (Cursor.y (ScreenBuffer.getCursor b))
  && (Z.of_nat (List.length (ScreenBuffer.getAllLines b))
      =? Dimensions.rows (ScreenBuffer.getDimensions b)).

(** The state engine replaces the content of the buffer between frames. *)
Definition write (b : ScreenBuffer.t) : Eff World unit :=
  modify (fun w => {| this := this w; window := window w; buffer := b; log := log w |}).

(** What can happen to a renderer: the state engine writes the buffer, the
    embedder calls a public method, a blink timer fires; and, for the
    study of the blink state alone, the two private methods. *)
Inductive op : Type :=
| Write (b : ScreenBuffer.t)
| Render (forceAll : bool)
| Resize (cols rows : Z)
| RemeasureFont (measured : FontMetrics.t)
| SetCursorStyle (style : CursorStyle)
| SetCursorBlink (enabled : bool)
| Clear
| Dispose
| Tick (id : nat)
| StartCursorBlink
| StopCursorBlink.

Definition is_private (o : op) : bool :=
  match o with
  | StartCursorBlink | StopCursorBlink => true
  | _ => false
  end.

Definition exec (o : op) : Eff World unit :=
  match o with
  | Write b => write b
  | Render forceAll => render forceAll
  | Resize cols rows => resize cols rows
  | RemeasureFont measured => remeasureFont measured
  | SetCursorStyle style => setCursorStyle style
  | SetCursorBlink enabled => setCursorBlink enabled
  | Clear => clear
  | Dispose => dispose
  | Tick id => tick id
  | StartCursorBlink => startCursorBlink
  | StopCursorBlink => stopCursorBlink
  end.

(** A session: each operation starts from the world the one before left,
    also when that one threw. *)
Definition run (ops : list op) (w : World) : World :=
  fold_left (fun w o => snd (exec o w)) ops w.

(** No blink timer is active, hence the cursor is not hidden. *)
Definition blink_inv (w : World) : Prop :=
  Window.timers (window w) = [] -> cursorVisible (this w) = true.

Definition add_log (l : list call) (w : World) : World := with_log (log w ++ l) w.

Definition is_DrawCell (c : call) : bool :=
  match c with DrawCell _ _ _ => true | _ => false end.

(** The calls of [renderLine]: the band and the cells. *)
Definition is_line_call (c : call) : bool :=
  match c with ClearLine _ _ | DrawCell _ _ _ => true | _ => false end.

(** The lines that the cursor-invalidation step of a pass that is not
    forced reads from the array of lines: [lines[cursor.y]] when that line
    is not dirty, and [lines[lastCursorPosition.y]] when the cursor left
    that line and it is not dirty, both only if the cursor moved or
    blinks. *)
Definition cursor_lines (w : World) : list Z :=
  let b := buffer w in
  let cursor := ScreenBuffer.getCursor b in
  let last := lastCursorPosition (this w) in
  let moved := cursorMoved (this w) cursor in
  if moved || cursorBlink (this w) then
    (if negb (ScreenBuffer.isDirty b (Cursor.y cursor)) then [Cursor.y cursor] else [])
    ++ (if moved && negb (Point.y last =? Cursor.y cursor)
        then (if negb (ScreenBuffer.isDirty b (Point.y last)) then [Point.y last] else [])
        else [])
  else [].

(** The call that paints the cursor, when both flags show it. *)
Definition cursor_call (w : World) : list call :=
  let cursor := ScreenBuffer.getCursor (buffer w) in
  if Cursor.visible cursor && cursorVisible (this w)
  then [DrawCursor (cursorStyle (this w)) (Cursor.x cursor) (Cursor.y cursor)]
  else [].

Definition cursor_point (w : World) : Point.t :=
  {| Point.x := Cursor.x (ScreenBuffer.getCursor (buffer w));
     Point.y := Cursor.y (ScreenBuffer.getCursor (buffer w)) |}.

(** What the public methods keep besides: the handle the renderer holds is
    the only timer, and it holds one only while blinking is enabled. *)
Definition owns_timer (w : World) : Prop :=
  Window.timers (window w)
  = match cursorBlinkInterval (this w) with Some id => [id] | None => [] end
  /\ (cursorBlinkInterval (this w) = None -> cursorVisible (this w) = true)
  /\ (cursorBlink (this w) = false -> cursorBlinkInterval (this w) = None).

(** The operations that leave the size of the canvas to [render]: all but
    a direct [resize] and a new measure of the font; the buffer that is
    written keeps its contract. *)
Definition benign (o : op) : bool :=
  match o with
  | Write b => contract b
  | Resize _ _ | RemeasureFont _ => false
  | _ => true
  end.

(** The previous cursor line is a line of every grid that fits the canvas
    as it is. *)
Definition last_line_safe (w : World) : Prop :=
  contract (buffer w) = true
  /\ FontMetrics.height (metrics (this w)) * devicePixelRatio (this w) <> 0
  /\ forall b,
       contract b = true ->
       needsResize (this w) (ScreenBuffer.getDimensions b) = false ->
       is_row b (Point.y (lastCursorPosition (this w))) = true.

(** ** Fixtures *)

Definition blank : Cell.t :=
  {| Cell.char := [32%N]; Cell.fg := ColorDefault; Cell.bg := ColorDefault;
     Cell.bold := false; Cell.italic := false; Cell.underline := false;
     Cell.strikethrough := false; Cell.faint := false; Cell.invisible := false;
     Cell.inverse := false; Cell.width := 1 |}.

(** A grid of [cols] by [rows] blank cells with the cursor at [(cx, cy)]
    and the lines of [dirty] flagged. *)
Definition grid (cols rows : nat) (cx cy : Z) (dirty : Z -> bool) : ScreenBuffer.t :=
  {| ScreenBuffer.getAllLines := repeat (repeat blank cols) rows;
     ScreenBuffer.getCursor := {| Cursor.x := cx; Cursor.y := cy; Cursor.visible := true |};
     ScreenBuffer.getDimensions :=
       {| Dimensions.cols := Z.of_nat cols; Dimensions.rows := Z.of_nat rows |};
     ScreenBuffer.isDirty := dirty |}.

Definition no_options : RendererOptions :=
  {| opt_cursorStyle := None; opt_cursorBlink := None; opt_devicePixelRatio := None |}.

Definition blink_options : RendererOptions :=
  {| opt_cursorStyle := None; opt_cursorBlink := Some true; opt_devicePixelRatio := None |}.

(** A new canvas element is 300 by 150. *)
Definition new_canvas : Canvas.t := {| Canvas.width := 300; Canvas.height := 150 |}.

Definition metrics_9x17 : FontMetrics.t :=
  {| FontMetrics.width := 9; FontMetrics.height := 17; FontMetrics.baseline := 14 |}.

Definition clean (y : Z) : bool := false.

(** A renderer on a new canvas, for a grid of 80 by 24 whose cursor is on
    the last line. *)
Definition started : World :=
  create new_canvas no_options 1 metrics_9x17 1 (grid 80 24 0 23 clean).

(** The first frame, then the grid shrinks to 10 rows: the embedder
    resizes the canvas and the state engine moves the cursor to line 5 and
    flags the lines of [dirty]. *)
Definition shrink (dirty : Z -> bool) : list op :=
  [Render false; Resize 80 10; Write (grid 80 10 0 5 dirty)].

End RenderSession.

From Stdlib Require Import QArith DecimalString DecimalZ.
Close Scope Q_scope.

(* ===================================================================== *)
(** * What the input handler does, event by event *)
(* ===================================================================== *)

Module InputFacts.

Import InputHandler.

(** The chunks of output among the effects, in order. *)
Definition chunks (l : list effect) : list jsstring :=
  flat_map (fun e => match e with OnData data => [data] | _ => [] end) l.

Definition is_OnKey (e : effect) : bool :=
  match e with OnKey _ => true | _ => false end.

Definition is_OnBell (e : effect) : bool :=
  match e with OnBell => true | _ => false end.

(** The names that every object inherits from [Object.prototype]
    (ECMAScript, 20.1.3 and B.2.2).  [KEY_MAP] is an object literal, so
    [KEY_MAP[code]] is [undefined] only for a code that is neither a
    property of the table nor one of these names: for these it is the
    inherited member. *)
Definition Object_prototype : list string :=
  ["constructor"; "hasOwnProperty"; "isPrototypeOf"; "propertyIsEnumerable";
   "toLocaleString"; "toString"; "valueOf"; "__proto__";
   "__defineGetter__"; "__defineSetter__"; "__lookupGetter__"; "__lookupSetter__"]%string.

Definition inherited (c : string) : bool :=
  existsb (String.eqb c) Object_prototype.

(** What one event does on a handler [h] attached to [c]. *)
Definition event_effects (decode : list Init.Byte.byte -> jsstring)
           (h : InputHandler.t) (c : Container) (ev : InputSession.dom_event)
  : list effect :=
  match ev with
  | InputSession.KeydownEvent e => snd (InputSession.keydown decode h c e)
  | InputSession.PasteEvent e => snd (InputSession.paste h c e)
  end.

(** The world after the effects [l]. *)
Definition more (l : list effect) (w : World) : World :=
  {| this := this w; container := container w; log := log w ++ l |}.

End InputFacts.

(* ===================================================================== *)
(** * What a frame draws *)
(* ===================================================================== *)

Module RenderFacts.

Import CanvasRenderer RenderSession.
Local Open Scope Z_scope.

(** The cells of a line from column [x0] on, each with its column. *)
Fixpoint columns (x0 : nat) (cells : list Cell.t) : list (Z * Cell.t) :=
  match cells with
  | [] => []
  | cell :: rest => (Z.of_nat x0, cell) :: columns (S x0) rest
  end.

(** One call of [renderCell] for each cell whose width is not zero. *)
Definition cell_draws (cells : list (Z * Cell.t)) (y : Z) : list call :=
  flat_map (fun p => if Cell.width (snd p) =? 0 then []
                     else [DrawCell (snd p) (fst p) y]) cells.

(** The frame does not reach a line that the buffer no longer has: the
    pass is a full one, or every line of the cursor is a row. *)
Definition completes (forceAll : bool) (w : World) : Prop :=
  forceAll || needsResize (this w) (ScreenBuffer.getDimensions (buffer w)) = true
  \/ forallb (is_row (buffer w)) (cursor_lines w) = true.

End RenderFacts.

(* ===================================================================== *)
(** * lib/renderer.ts: the theme, the palette and the paint of a cell *)
(* ===================================================================== *)

(** A property of a theme object given by the embedder: absent, present
    with the value [undefined], or present with a colour.  An object
    spread copies the properties that are present, whatever their
    value. *)
Inductive slot : Type :=
| Absent
| Undefined
| Value (css : string).

(** [ITheme] of lib/interfaces.ts: every property is optional. *)
Module ITheme.
Record t : Type := {
  foreground : slot; background : slot; cursor : slot; cursorAccent : slot;
  selectionBackground : slot; selectionForeground : slot;
  black : slot; red : slot; green : slot; yellow : slot;
  blue : slot; magenta : slot; cyan : slot; white : slot;
  brightBlack : slot; brightRed : slot; brightGreen : slot; brightYellow : slot;
  brightBlue : slot; brightMagenta : slot; brightCyan : slot; brightWhite : slot
}.
End ITheme.

(** The [theme] field of the renderer: every property is present; its
    value is a colour, or [undefined] ([None]) if the embedder gave
    that. *)
Module Theme.
Record t : Type := {
  foreground : option string; background : option string;
  cursor : option string; cursorAccent : option string;
  selectionBackground : option string; selectionForeground : option string;
  black : option string; red : option string; green : option string;
  yellow : option string; blue : option string; magenta : option string;
  cyan : option string; white : option string;
  brightBlack : option string; brightRed : option string;
  brightGreen : option string; brightYellow : option string;
  brightBlue : option string; brightMagenta : option string;
  brightCyan : option string; brightWhite : option string
}.
End Theme.

Module Colors.

Local Open Scope string_scope.

(** [DEFAULT_THEME]. *)
Definition DEFAULT_THEME : Theme.t := {|
  Theme.foreground := Some "#d4d4d4";
  Theme.background := Some "#1e1e1e";
  Theme.cursor := Some "#ffffff";
  Theme.cursorAccent := Some "#1e1e1e";
  Theme.selectionBackground := Some "#264f78";
  Theme.selectionForeground := Some "#d4d4d4";
  Theme.black := Some "#000000";
  Theme.red := Some "#cd3131";
  Theme.green := Some "#0dbc79";
  Theme.yellow := Some "#e5e510";
  Theme.blue := Some "#2472c8";
  Theme.magenta := Some "#bc3fbc";
  Theme.cyan := Some "#11a8cd";
  Theme.white := Some "#e5e5e5";
  Theme.brightBlack := Some "#666666";
  Theme.brightRed := Some "#f14c4c";
  Theme.brightGreen := Some "#23d18b";
  Theme.brightYellow := Some "#f5f543";
  Theme.brightBlue := Some "#3b8eea";
  Theme.brightMagenta := Some "#d670d6";
  Theme.brightCyan := Some "#29b8db";
  Theme.brightWhite := Some "#ffffff"
|}.

(** One property of [{ ...base, ...given }]. *)
Definition over (base : option string) (given : slot) : option string :=
  match given with
  | Absent => base
  | Undefined => None
  | Value css => Some css
  end.

(** [{ ...base, ...theme }]. *)
Definition spread (base : Theme.t) (theme : ITheme.t) : Theme.t := {|
  Theme.foreground := over (Theme.foreground base) (ITheme.foreground theme);
  Theme.background := over (Theme.background base) (ITheme.background theme);
  Theme.cursor := over (Theme.cursor base) (ITheme.cursor theme);
  Theme.cursorAccent := over (Theme.cursorAccent base) (ITheme.cursorAccent theme);
  Theme.selectionBackground :=
    over (Theme.selectionBackground base) (ITheme.selectionBackground theme);
  Theme.selectionForeground :=
    over (Theme.selectionForeground base) (ITheme.selectionForeground theme);
  Theme.black := over (Theme.black base) (ITheme.black theme);
  Theme.red := over (Theme.red base) (ITheme.red theme);
  Theme.green := over (Theme.green base) (ITheme.green theme);
  Theme.yellow := over (Theme.yellow base) (ITheme.yellow theme);
  Theme.blue := over (Theme.blue base) (ITheme.blue theme);
  Theme.magenta := over (Theme.magenta base) (ITheme.magenta theme);
  Theme.cyan := over (Theme.cyan base) (ITheme.cyan theme);
  Theme.white := over (Theme.white base) (ITheme.white theme);
  Theme.brightBlack := over (Theme.brightBlack base) (ITheme.brightBlack theme);
  Theme.brightRed := over (Theme.brightRed base) (ITheme.brightRed theme);
  Theme.brightGreen := over (Theme.brightGreen base) (ITheme.brightGreen theme);
  Theme.brightYellow := over (Theme.brightYellow base) (ITheme.brightYellow theme);
  Theme.brightBlue := over (Theme.brightBlue base) (ITheme.brightBlue theme);
  Theme.brightMagenta := over (Theme.brightMagenta base) (ITheme.brightMagenta theme);
  Theme.brightCyan := over (Theme.brightCyan base) (ITheme.brightCyan theme);
  Theme.brightWhite := over (Theme.brightWhite base) (ITheme.brightWhite theme)
|}.

(** The array built from the sixteen ANSI properties of the theme. *)
Definition ansi (theme : Theme.t) : list (option string) := [
  Theme.black theme; Theme.red theme; Theme.green theme; Theme.yellow theme;
  Theme.blue theme; Theme.magenta theme; Theme.cyan theme; Theme.white theme;
  Theme.brightBlack theme; Theme.brightRed theme; Theme.brightGreen theme;
  Theme.brightYellow theme; Theme.brightBlue theme; Theme.brightMagenta theme;
  Theme.brightCyan theme; Theme.brightWhite theme
].

(** The [theme] and [palette] fields of the renderer. *)
Record t : Type := {
  theme : Theme.t;
  palette : list (option string)
}.

(** The two statements of the constructor on the theme: [options.theme]
    may be missing, and spreading [undefined] adds nothing. *)
Definition create (given : option ITheme.t) : t :=
  let theme := match given with
               | Some g => spread DEFAULT_THEME g
               | None => DEFAULT_THEME
               end in
  {| theme := theme; palette := ansi theme |}.

(** [setTheme]. *)
Definition setTheme (given : ITheme.t) (self : t) : t :=
  let theme := spread DEFAULT_THEME given in
  {| theme := theme; palette := ansi theme |}.

(** A whole number in a template literal. *)
Definition show (n : Z) : string := NilZero.string_of_int (Z.to_int n).

(** [colorToCSS]; the result is [undefined] ([None]) when the property it
    reads is. *)
Definition colorToCSS (self : t) (color : CellColor) (isBackground : bool)
  : option string :=
  match color with
  | ColorDefault =>
    if isBackground then Theme.background (theme self) else Theme.foreground (theme self)
  | ColorPalette i =>
    if ((i >=? 0) && (i <? Z.of_nat (List.length (palette self))))%Z then
      match index (palette self) i with
      | Some css => css
      | None => None
      end
    else
      if isBackground then Theme.background (theme self)
      else Theme.foreground (theme self)
  | ColorRgb r g b =>
    Some ("rgb(" ++ show r ++ ", " ++ show g ++ ", " ++ show b ++ ")")%string
  end.

(** No property of the given theme is present with the value
    [undefined]. *)
Definition defined (s : slot) : bool :=
  match s with Undefined => false | _ => true end.

Definition well_given (g : ITheme.t) : bool :=
  defined (ITheme.foreground g) && defined (ITheme.background g)
  && defined (ITheme.cursor g) && defined (ITheme.cursorAccent g)
  && defined (ITheme.selectionBackground g) && defined (ITheme.selectionForeground g)
  && defined (ITheme.black g) && defined (ITheme.red g) && defined (ITheme.green g)
  && defined (ITheme.yellow g) && defined (ITheme.blue g) && defined (ITheme.magenta g)
  && defined (ITheme.cyan g) && defined (ITheme.white g)
  && defined (ITheme.brightBlack g) && defined (ITheme.brightRed g)
  && defined (ITheme.brightGreen g) && defined (ITheme.brightYellow g)
  && defined (ITheme.brightBlue g) && defined (ITheme.brightMagenta g)
  && defined (ITheme.brightCyan g) && defined (ITheme.brightWhite g).

(** The palette is the one built from the theme. *)
Definition coherent (self : t) : Prop := palette self = ansi (theme self).

(** A theme object without any property. *)
Definition no_theme : ITheme.t := {|
  ITheme.foreground := Absent; ITheme.background := Absent; ITheme.cursor := Absent;
  ITheme.cursorAccent := Absent; ITheme.selectionBackground := Absent;
  ITheme.selectionForeground := Absent;
  ITheme.black := Absent; ITheme.red := Absent; ITheme.green := Absent;
  ITheme.yellow := Absent; ITheme.blue := Absent; ITheme.magenta := Absent;
  ITheme.cyan := Absent; ITheme.white := Absent;
  ITheme.brightBlack := Absent; ITheme.brightRed := Absent;
  ITheme.brightGreen := Absent; ITheme.brightYellow := Absent;
  ITheme.brightBlue := Absent; ITheme.brightMagenta := Absent;
  ITheme.brightCyan := Absent; ITheme.brightWhite := Absent
|}.

(** The character [a] does not occur in [s]. *)
Fixpoint free (a : ascii) (s : string) : bool :=
  match s with
  | EmptyString => true
  | String c s' => negb (Ascii.eqb c a) && free a s'
  end.

End Colors.

(** ** The paint of one cell *)

Module CellPaint.

Local Open Scope string_scope.

(** The properties of the 2D context that [renderCell] assigns.  A read
    of one gives what was assigned last. *)
Record Context : Type := {
  fillStyle : option string;
  font : string;
  globalAlpha : Q;
  strokeStyle : option string;
  lineWidth : Z
}.

(** What is drawn: [fillRect], [fillText], and the path of one horizontal
    segment ([beginPath], [moveTo(x1, y)], [lineTo(x2, y)], [stroke]). *)
Inductive shape : Type :=
| Rect (x y width height : Z)
| Text (char : jsstring) (x y : Z)
| Segment (x1 : Z) (y : Q) (x2 : Z).

(** A drawing call, with the context it is drawn with. *)
Record paint : Type := {
  what : shape;
  drawn_with : Context
}.

(** The fields of the renderer that [renderCell] reads. *)
Record Settings : Type := {
  colors : Colors.t;
  metrics : FontMetrics.t;
  fontSize : Z;
  fontFamily : string
}.

Record World : Type := {
  ctx : Context;
  log : list paint
}.

Definition assign (f : Context -> Context) : Eff World unit :=
  modify (fun w => {| ctx := f (ctx w); log := log w |}).

Definition draw (s : shape) : Eff World unit :=
  modify (fun w => {| ctx := ctx w;
                      log := List.app (log w) [{| what := s; drawn_with := ctx w |}] |}).

Definition set_fillStyle (v : option string) (c : Context) : Context :=
  {| fillStyle := v; font := font c; globalAlpha := globalAlpha c;
     strokeStyle := strokeStyle c; lineWidth := lineWidth c |}.

Definition set_font (v : string) (c : Context) : Context :=
  {| fillStyle := fillStyle c; font := v; globalAlpha := globalAlpha c;
     strokeStyle := strokeStyle c; lineWidth := lineWidth c |}.

Definition set_globalAlpha (v : Q) (c : Context) : Context :=
  {| fillStyle := fillStyle c; font := font c; globalAlpha := v;
     strokeStyle := strokeStyle c; lineWidth := lineWidth c |}.

Definition set_strokeStyle (v : option string) (c : Context) : Context :=
  {| fillStyle := fillStyle c; font := font c; globalAlpha := globalAlpha c;
     strokeStyle := v; lineWidth := lineWidth c |}.

Definition set_lineWidth (v : Z) (c : Context) : Context :=
  {| fillStyle := fillStyle c; font := font c; globalAlpha := globalAlpha c;
     strokeStyle := strokeStyle c; lineWidth := v |}.

Definition is_default (c : CellColor) : bool :=
  match c with ColorDefault => true | _ => false end.

(** The four statements that draw a decoration line at height [y]. *)
Definition decoration (cellX cellWidth : Z) (y : Q) : Eff World unit :=
  assign (fun c => set_strokeStyle (fillStyle c) c) ;;
  assign (set_lineWidth 1) ;;
  draw (Segment cellX y (cellX + cellWidth)).

(** [renderCell], with the whole-number font size printed in the font. *)
Definition renderCell (self : Settings) (cell : Cell.t) (x y : Z) : Eff World unit :=
  let cellX := (x * FontMetrics.width (metrics self))%Z in
  let cellY := (y * FontMetrics.height (metrics self))%Z in
  let cellWidth := (FontMetrics.width (metrics self) * Cell.width cell)%Z in
  let fg := if Cell.inverse cell then Cell.bg cell else Cell.fg cell in
  let bg := if Cell.inverse cell then Cell.fg cell else Cell.bg cell in
  when (negb (is_default bg) || Cell.inverse cell)
    (assign (set_fillStyle (Colors.colorToCSS (colors self) bg true)) ;;
     draw (Rect cellX cellY cellWidth (FontMetrics.height (metrics self)))) ;;
  if Cell.invisible cell then ret tt else
  let fontStyle := "" in
  let fontStyle := if Cell.italic cell then fontStyle ++ "italic " else fontStyle in
  let fontStyle := if Cell.bold cell then fontStyle ++ "bold " else fontStyle in
  assign (set_font (fontStyle ++ Colors.show (fontSize self) ++ "px " ++ fontFamily self)) ;;
  assign (set_fillStyle (Colors.colorToCSS (colors self) fg false)) ;;
  when (Cell.faint cell) (assign (set_globalAlpha (1 # 2))) ;;
  let textX := cellX in
  let textY := (cellY + FontMetrics.baseline (metrics self))%Z in
  draw (Text (Cell.char cell) textX textY) ;;
  when (Cell.faint cell) (assign (set_globalAlpha 1)) ;;
  when (Cell.underline cell)
    (let underlineY := (cellY + FontMetrics.baseline (metrics self) + 2)%Z in
     decoration cellX cellWidth (inject_Z underlineY)) ;;
  when (Cell.strikethrough cell)
    (let strikeY := Qplus (inject_Z cellY)
                          (Qdiv (inject_Z (FontMetrics.height (metrics self))) 2) in
     decoration cellX cellWidth strikeY).

(** The cell with its two colours exchanged and without the inverse
    flag. *)
Definition exchanged (cell : Cell.t) : Cell.t :=
  {| Cell.char := Cell.char cell; Cell.fg := Cell.bg cell; Cell.bg := Cell.fg cell;
     Cell.bold := Cell.bold cell; Cell.italic := Cell.italic cell;
     Cell.underline := Cell.underline cell;
     Cell.strikethrough := Cell.strikethrough cell; Cell.faint := Cell.faint cell;
     Cell.invisible := Cell.invisible cell; Cell.inverse := false;
     Cell.width := Cell.width cell |}.

Definition is_Rect (p : paint) : bool :=
  match what p with Rect _ _ _ _ => true | _ => false end.

Definition is_Text (p : paint) : bool :=
  match what p with Text _ _ _ => true | _ => false end.

Definition is_Segment (p : paint) : bool :=
  match what p with Segment _ _ _ => true | _ => false end.

(** What one call of [renderCell] draws, from a context [c]. *)
Definition paints (self : Settings) (cell : Cell.t) (x y : Z) (c : Context)
  : list paint :=
  log (snd (renderCell self cell x y {| ctx := c; log := [] |})).

Definition context_after (self : Settings) (cell : Cell.t) (x y : Z) (c : Context)
  : Context :=
  ctx (snd (renderCell self cell x y {| ctx := c; log := [] |})).

(** ** Fixtures *)

(** A renderer with the default options, and the measure of its font. *)
Definition default_settings : Settings :=
  {| colors := Colors.create None; metrics := RenderSession.metrics_9x17;
     fontSize := 15; fontFamily := "monospace" |}.

(** A context as the canvas gives it. *)
Definition new_context : Context :=
  {| fillStyle := Some "#000000"; font := "10px sans-serif"; globalAlpha := 1;
     strokeStyle := Some "#000000"; lineWidth := 1 |}.

(** A cell of text with the given colours and attributes. *)
Definition styled (fg bg : CellColor) (underline strikethrough faint invisible inverse : bool)
  : Cell.t :=
  {| Cell.char := [65%N]; Cell.fg := fg; Cell.bg := bg;
     Cell.bold := false; Cell.italic := false; Cell.underline := underline;
     Cell.strikethrough := strikethrough; Cell.faint := faint;
     Cell.invisible := invisible; Cell.inverse := inverse; Cell.width := 1 |}.

End CellPaint.

(* ===================================================================== *)
(** * Properties of the input handler *)
(* ===================================================================== *)

Section InputHandlerProperties.

Import InputHandler InputSession.

Variable decode : list Init.Byte.byte -> jsstring.

#[local] Arguments mapKeyCode : simpl never.
#[local] Arguments simpleOutput : simpl never.
#[local] Arguments utf8_hint : simpl never.
#[local] Arguments String.eqb : simpl never.

Ltac unfold_handler :=
  unfold keydown, paste, observe, handleKeyDown, handlePaste, encodeKey,
    InputHandler.emit, customHandled, prelude, when, bind, gets, modify, ret,
    try_catch, isPrintableCharacter, extractModifiers in *;
  cbn in *.

Ltac case_split :=
  repeat match goal with
         | |- context [match ?x with _ => _ end] =>
           lazymatch x with
           | context [match _ with _ => _ end] => fail
           | _ => destruct x eqn:?; cbn in *; try congruence
           end
         end.

Lemma mods_none_or_shift (e : KeyboardEvent) :
  ((extractModifiers e =? Mods.NONE)%Z || (extractModifiers e =? Mods.SHIFT)%Z) = true
  <-> ctrlKey e = false /\ altKey e = false /\ metaKey e = false.
Proof.
  unfold extractModifiers.
  destruct (shiftKey e), (ctrlKey e), (altKey e), (metaKey e); cbn;
    intuition congruence.
Qed.

Lemma handleKeyDown_returns (h : InputHandler.t) (c : Container) (e : KeyboardEvent) :
  fst (keydown decode h c e) = Returned tt.
Proof.
  unfold_handler. case_split; reflexivity.
Qed.


(** C1, as the code has it.  On a live handler whose custom handler does
    not consume the event, a key-down whose key is one character takes the
    literal-character path (after the opening calls: default suppressed,
    then that character as the one chunk of output) if and only if super
    is not held, control and alt are held together or not at all, and the
    event is not control on the physical V key.  Shift plays no part.
    Control with alt is the AltGr exception of [isPrintableCharacter]. *)
Theorem fast_path_boundary (h : InputHandler.t) (c : Container) (e : KeyboardEvent) :
  isDisposed h = false ->
  customHandled h e = false ->
  List.length (key e) = 1%nat ->
  (keydown decode h c e
     = (Returned tt, prelude h e ++ [PreventDefault; OnData (key e)])
   <-> metaKey e = false /\ ctrlKey e = altKey e
       /\ (ctrlKey e && String.eqb (code e) "KeyV") = false).
Proof.
  intros Hlive Hcustom Hlen.
  destruct h as [enc onKey custom kd kp pl disposed].
  destruct e as [cd k ctrl alt shift meta].
  cbn in Hlive, Hlen. subst disposed.
  unfold_handler. rewrite Hlen; cbn.
  split.
  - destruct onKey, custom as [f|], ctrl, alt, meta, shift,
      (String.eqb cd "KeyV"), (String.eqb cd "KeyC"); cbn in *;
      try rewrite Hcustom; cbn;
      try (intros _; repeat split; reflexivity);
      case_split; intros H; try discriminate H; try (inversion H; fail).
  - intros (-> & <- & HV).
    destruct onKey, custom as [f|], ctrl, shift, (String.eqb cd "KeyV");
      cbn in *; try rewrite Hcustom; cbn; try discriminate HV; reflexivity.
Qed.


(** C4.  On a live handler whose custom handler does not consume the
    event, a key-down that reaches the table of canonical sequences (its
    modifier set is none or shift only, and its key value is the name of
    the key, not one character, which the literal-character path would
    take first) on Enter, Tab, Escape, an arrow or F1 to F12 suppresses
    the default and emits exactly the listed bytes as one chunk, and does
    nothing else after the opening calls. *)
Theorem canonical_sequences (h : InputHandler.t) (c : Container) (e : KeyboardEvent)
        (out : jsstring) :
  isDisposed h = false ->
  customHandled h e = false ->
  extractModifiers e = Mods.NONE \/ extractModifiers e = Mods.SHIFT ->
  List.length (key e) <> 1%nat ->
  In (code e, out)
     [("Enter", [13]); ("Tab", [9]); ("Escape", [27]);
      ("ArrowUp", [27; 91; 65]); ("ArrowDown", [27; 91; 66]);
      ("ArrowRight", [27; 91; 67]); ("ArrowLeft", [27; 91; 68]);
      ("F1", [27; 79; 80]); ("F2", [27; 79; 81]);
      ("F3", [27; 79; 82]); ("F4", [27; 79; 83]);
      ("F5", [27; 91; 49; 53; 126]); ("F6", [27; 91; 49; 55; 126]);
      ("F7", [27; 91; 49; 56; 126]); ("F8", [27; 91; 49; 57; 126]);
      ("F9", [27; 91; 50; 48; 126]); ("F10", [27; 91; 50; 49; 126]);
      ("F11", [27; 91; 50; 51; 126]); ("F12", [27; 91; 50; 52; 126])]%string%N ->
  keydown decode h c e
  = (Returned tt, prelude h e ++ [PreventDefault; OnData out]).
Proof.
  intros Hlive Hcustom Hmods Hlen Hin.
  assert (Hm : ctrlKey e = false /\ altKey e = false /\ metaKey e = false).
  { apply mods_none_or_shift. destruct Hmods as [-> | ->]; reflexivity. }
  destruct Hm as (Hc & Ha & Hs).
  apply Nat.eqb_neq in Hlen.
  destruct h as [enc onKey custom kd kp pl disposed].
  destruct e as [cd k ctrl alt shift meta].
  cbn in Hlive, Hlen, Hc, Ha, Hs, Hin. subst disposed ctrl alt meta.
  unfold_handler. rewrite Hlen.
  repeat (destruct Hin as [Hin | Hin];
          [ inversion Hin; subst cd out; clear Hin;
            destruct onKey, custom as [f|], shift; cbn in *;
            try rewrite Hcustom; reflexivity
          | ]).
  contradiction.
Qed.


(** C5.  A key-down with control or super on the physical V key, or with
    super on the physical C key, that the custom handler does not consume
    does nothing but the opening calls (nothing at all on a disposed
    handler): no chunk of output, no suppression of the default. *)
Theorem paste_and_copy_chords (h : InputHandler.t) (c : Container) (e : KeyboardEvent) :
  customHandled h e = false ->
  ((ctrlKey e || metaKey e) && String.eqb (code e) "KeyV" = true
   \/ metaKey e && String.eqb (code e) "KeyC" = true) ->
  keydown decode h c e
  = (Returned tt, if isDisposed h then [] else prelude h e)
  /\ (forall data, ~ In (OnData data) (snd (keydown decode h c e)))
  /\ ~ In PreventDefault (snd (keydown decode h c e)).
Proof.
  intros Hcustom Hchord.
  assert (Heq : keydown decode h c e
                = (Returned tt, if isDisposed h then [] else prelude h e)).
  { destruct h as [enc onKey custom kd kp pl disposed].
    destruct e as [cd k ctrl alt shift meta].
    unfold_handler.
    destruct disposed; [reflexivity|].
    destruct Hchord as [H | H].
    - destruct onKey, custom as [f|]; cbn in *;
        try rewrite Hcustom; cbn; rewrite H; reflexivity.
    - apply andb_prop in H. destruct H as [-> H].
      rewrite orb_true_r. cbn.
      destruct onKey, custom as [f|]; cbn in *;
        try rewrite Hcustom; cbn; rewrite H;
        destruct (String.eqb cd "KeyV"); reflexivity. }
  rewrite Heq. split; [reflexivity|]. cbn [snd].
  unfold prelude.
  destruct (isDisposed h), (onKeyCallback h), (customKeyEventHandler h);
    cbn; split; try intros data; intuition discriminate.
Qed.

(** C6.  On a live handler a paste event has its default suppressed (and
    its propagation stopped); without clipboard data, or with an empty
    plain-text payload, nothing else happens but a console warning;
    otherwise the plain-text payload is emitted as it is, as one chunk. *)
Theorem paste_payload (h : InputHandler.t) (c : Container) (e : ClipboardEvent) :
  isDisposed h = false ->
  paste h c e
  = (Returned tt,
     [PreventDefault; StopPropagation]
     ++ match clipboardData e with
        | None => [ConsoleWarn "No clipboard data available"]
        | Some data =>
          match getData data "text/plain" with
          | [] => [ConsoleWarn "No text in clipboard"]
          | text => [OnData text]
          end
        end).
Proof.
  intros Hlive.
  destruct h as [enc onKey custom kd kp pl disposed]. cbn in Hlive. subst.
  unfold_handler.
  destruct (clipboardData e) as [data|]; [|reflexivity].
  destruct (getData data "text/plain"); reflexivity.
Qed.

(** C10.  A key-down that reaches the advanced encoder (live handler, not
    consumed by the custom handler, neither chord, not a literal
    character, a mapped code, no canonical sequence): if the encoder
    throws, the handler returns normally having only logged a warning, with
    no output and without suppressing the default or stopping the
    propagation; these two calls are made only after the encoder has
    returned, and the output follows them if it is not empty. *)
Theorem encoder_failure_is_contained
        (h : InputHandler.t) (c : Container) (e : KeyboardEvent) (k : Key.t) :
  isDisposed h = false ->
  customHandled h e = false ->
  (ctrlKey e || metaKey e) && String.eqb (code e) "KeyV" = false ->
  metaKey e && String.eqb (code e) "KeyC" = false ->
  isPrintableCharacter e = false ->
  mapKeyCode (code e) = Some k ->
  (if (extractModifiers e =? Mods.NONE)%Z || (extractModifiers e =? Mods.SHIFT)%Z
   then simpleOutput k else None) = None ->
  keydown decode h c e
  = (Returned tt,
     prelude h e
     ++ match encoder h {| action := KeyAction.PRESS; req_key := k;
                           mods := extractModifiers e; utf8 := utf8_hint e |} with
        | Thrown _ => [ConsoleWarn "Failed to encode key:"]
        | Returned bytes =>
          [PreventDefault; StopPropagation]
          ++ (if Nat.ltb 0 (List.length (decode bytes))
              then [OnData (decode bytes)] else [])
        end).
Proof.
  intros Hlive Hcustom Hpaste Hcopy Hprint Hmap Hsimple.
  destruct h as [enc onKey custom kd kp pl disposed]. cbn in Hlive. subst.
  unfold keydown, observe, handleKeyDown, encodeKey, InputHandler.emit,
    customHandled, prelude, when, bind, gets, modify, ret, try_catch in *.
  cbn in *.
  rewrite Hpaste, Hcopy, Hprint, Hmap, Hsimple.
  destruct onKey, custom as [f|]; cbn in *; try rewrite Hcustom; cbn;
    (destruct (enc _) as [bytes|err]; cbn;
     [destruct (List.length (decode bytes)); reflexivity | reflexivity]).
Qed.


(** On a disposed handler both listeners return at their first line. *)
Lemma invoke_disposed (l : listener) (ev : dom_event) (w : World) :
  isDisposed (this w) = true ->
  invoke decode l ev w = (Returned tt, w).
Proof.
  intros Hd.
  destruct l, ev; cbn; try reflexivity;
    unfold handleKeyDown, handlePaste, bind, gets; cbn; rewrite Hd; reflexivity.
Qed.

Lemma deliver_disposed (ev : dom_event) (w : World) :
  isDisposed (this w) = true ->
  dispatchEvent decode ev w = (Returned tt, w).
Proof.
  intros Hd. unfold dispatchEvent, bind, gets. cbn.
  induction (filter _ (listeners (container w))) as [|p ps IH]; cbn.
  - reflexivity.
  - unfold bind. rewrite invoke_disposed by assumption. exact IH.
Qed.

Lemma dispose_disposed (w : World) :
  isDisposed (this w) = true -> dispose w = (Returned tt, w).
Proof.
  intros Hd. unfold dispose, bind, gets. cbn. rewrite Hd. reflexivity.
Qed.

Lemma dispose_returns (w : World) :
  fst (dispose w) = Returned tt /\ isDisposed (this (snd (dispose w))) = true.
Proof.
  destruct w as [h c l]. destruct h as [enc onKey custom kd kp pl disposed].
  unfold dispose, removeEventListener, InputHandler.emit, set_this,
    set_container, bind, gets, modify, ret. cbn.
  destruct disposed, kd, kp, pl; cbn; split; reflexivity.
Qed.

Lemma exec_disposed (s : step) (w : World) :
  isDisposed (this w) = true ->
  exists w', exec decode s w = (Returned tt, w')
             /\ log w' = log w /\ isDisposed (this w') = true.
Proof.
  intros Hd. destruct s as [ev | l ev | | handler]; cbn [exec].
  - exists w. rewrite deliver_disposed by assumption. auto.
  - exists w. rewrite invoke_disposed by assumption. auto.
  - exists w. rewrite dispose_disposed by assumption. auto.
  - eexists. unfold setCustomKeyEventHandler, set_this, modify.
    split; [reflexivity|]. cbn. auto.
Qed.

Lemma run_disposed (steps : list step) (w : World) :
  isDisposed (this w) = true ->
  exists w', run decode steps w = (Returned tt, w')
             /\ log w' = log w /\ isDisposed (this w') = true.
Proof.
  revert w. induction steps as [|s steps IH]; intros w Hd.
  - exists w. auto.
  - destruct (exec_disposed s w Hd) as (w1 & Hs & Hlog & Hd1).
    destruct (IH w1 Hd1) as (w2 & Hr & Hlog2 & Hd2).
    exists w2. unfold run in *. cbn. unfold bind. rewrite Hs.
    split; [exact Hr|]. split; [congruence | assumption].
Qed.

(** C7.  [dispose] returns normally on every handler, also on one never
    used and on one already disposed, where it changes nothing; and after
    it no sequence of further events, delivered by the container or given
    to a listener directly, and of further calls of public methods, adds
    any call to those made so far: no data, raw-key, custom-handler or
    bell callback, nor anything else. *)
Theorem dispose_is_final (w : World) (steps : list step) :
  fst (dispose w) = Returned tt
  /\ dispose (snd (dispose w)) = (Returned tt, snd (dispose w))
  /\ exists w', run decode steps (snd (dispose w)) = (Returned tt, w')
                /\ log w' = log (snd (dispose w)).
Proof.
  destruct (dispose_returns w) as [Hret Hd].
  split; [exact Hret|]. split.
  - apply dispose_disposed, Hd.
  - destruct (run_disposed steps _ Hd) as (w' & Hr & Hlog & _).
    exists w'. auto.
Qed.

End InputHandlerProperties.

(* ===================================================================== *)
(** * Properties of the renderer *)
(* ===================================================================== *)

Section RendererProperties.

Import CanvasRenderer RenderSession.
Local Open Scope Z_scope.


Lemma add_log_nil (w : World) : add_log [] w = w.
Proof. destruct w; unfold add_log, with_log; cbn. now rewrite app_nil_r. Qed.

Lemma add_log_app (a b : list call) (w : World) :
  add_log b (add_log a w) = add_log (a ++ b) w.
Proof. unfold add_log, with_log; cbn. now rewrite app_assoc. Qed.

Lemma emit_add_log (c : call) (w : World) :
  CanvasRenderer.emit c w = (Returned tt, add_log [c] w).
Proof. reflexivity. Qed.

Lemma index_of_nat {A : Type} (l : list A) (i : nat) :
  index l (Z.of_nat i) = nth_error l i.
Proof.
  unfold index. destruct (Z.ltb_spec (Z.of_nat i) 0); [lia|].
  now rewrite Nat2Z.id.
Qed.

Lemma painted_app (a b : list call) : painted (a ++ b) = painted a ++ painted b.
Proof. unfold painted. apply flat_map_app. Qed.

Lemma painted_ClearLine (y cols : Z) (l : list call) :
  painted (ClearLine y cols :: l) = y :: painted l.
Proof. reflexivity. Qed.

Lemma painted_DrawCell (ds : list call) :
  forallb is_DrawCell ds = true -> painted ds = [].
Proof.
  induction ds as [|d ds IH]; cbn; [reflexivity|].
  intros H. apply andb_prop in H. destruct H as [Hd Hds].
  destruct d; try discriminate. cbn. auto.
Qed.

(** The cells of a line are drawn without an exception. *)
Lemma cells_loop (cells : list Cell.t) (y : Z) (xs : list nat) :
  (forall x, In x xs -> (x < List.length cells)%nat) ->
  exists ds, forallb is_DrawCell ds = true /\
    forall w,
      for_each (map Z.of_nat xs) (fun x =>
        match index cells x with
        | None => throw (TypeError "undefined is not an object (evaluating 'cell.width')")
        | Some cell => if Cell.width cell =? 0 then ret tt else renderCell cell x y
        end) w
      = (Returned tt, add_log ds w).
Proof.
  induction xs as [|x xs IH]; intros Hin.
  - exists []. split; [reflexivity|]. intros w. cbn. now rewrite add_log_nil.
  - destruct IH as (ds & Hds & IH). { intros; apply Hin; now right. }
    assert (Hx : (x < List.length cells)%nat) by (apply Hin; now left).
    destruct (nth_error cells x) as [cell|] eqn:Hnth.
    2:{ apply nth_error_None in Hnth. lia. }
    destruct (Cell.width cell =? 0) eqn:Hw.
    + exists ds. split; [exact Hds|]. intros w. cbn [map for_each].
      unfold bind. rewrite index_of_nat, Hnth, Hw. cbn. apply IH.
    + exists (DrawCell cell (Z.of_nat x) y :: ds). split; [exact Hds|].
      intros w. cbn [map for_each]. unfold bind.
      rewrite index_of_nat, Hnth, Hw. unfold renderCell.
      rewrite emit_add_log, IH, add_log_app. reflexivity.
Qed.

Lemma renderLine_some (cells : list Cell.t) (y cols : Z) :
  exists ds, forallb is_DrawCell ds = true /\
    forall w, renderLine (Some cells) y cols w
              = (Returned tt, add_log (ClearLine y cols :: ds) w).
Proof.
  destruct (cells_loop cells y (seq 0 (List.length cells))) as (ds & Hds & H).
  { intros x Hx. apply in_seq in Hx. lia. }
  exists ds. split; [exact Hds|]. intros w.
  unfold renderLine, bind. rewrite emit_add_log. unfold range.
  rewrite H, add_log_app. reflexivity.
Qed.

Lemma renderLine_none (y cols : Z) (w : World) :
  exists e, renderLine None y cols w = (Thrown e, add_log [ClearLine y cols] w).
Proof. eexists. reflexivity. Qed.



Lemma DrawCell_line_calls (ds : list call) :
  forallb is_DrawCell ds = true -> forallb is_line_call ds = true.
Proof.
  induction ds as [|d ds IH]; cbn; [reflexivity|].
  intros H. apply andb_prop in H. destruct H as [Hd Hds].
  destruct d; try discriminate. cbn. auto.
Qed.

(** The loop over the lines: the lines that are not skipped are repainted,
    in order, without an exception. *)
Lemma lines_loop (buf : ScreenBuffer.t) (fa : bool) (cols : Z) (ys : list nat) :
  (forall y, In y ys -> (y < List.length (ScreenBuffer.getAllLines buf))%nat) ->
  exists calls,
    painted calls
    = filter (fun y => fa || ScreenBuffer.isDirty buf y) (map Z.of_nat ys)
    /\ forallb is_line_call calls = true
    /\ forall w,
        for_each (map Z.of_nat ys) (fun y =>
          if negb fa && negb (ScreenBuffer.isDirty buf y) then ret tt
          else renderLine (index (ScreenBuffer.getAllLines buf) y) y cols) w
        = (Returned tt, add_log calls w).
Proof.
  induction ys as [|y ys IH]; intros Hin.
  - exists []. repeat split. intros w. cbn. now rewrite add_log_nil.
  - destruct IH as (calls & Hp & Hl & IH). { intros; apply Hin; now right. }
    assert (Hy : (y < List.length (ScreenBuffer.getAllLines buf))%nat)
      by (apply Hin; now left).
    destruct (nth_error (ScreenBuffer.getAllLines buf) y) as [cells|] eqn:Hnth.
    2:{ apply nth_error_None in Hnth. lia. }
    cbn [map filter for_each].
    destruct (fa || ScreenBuffer.isDirty buf (Z.of_nat y)) eqn:Hk.
    + destruct (renderLine_some cells (Z.of_nat y) cols) as (ds & Hds & Hr).
      exists ((ClearLine (Z.of_nat y) cols :: ds) ++ calls). split; [|split].
      * rewrite painted_app, painted_ClearLine, painted_DrawCell by assumption.
        cbn [app]. now rewrite Hp.
      * rewrite forallb_app. cbn. rewrite DrawCell_line_calls by assumption.
        exact Hl.
      * intros w. unfold bind.
        replace (negb fa && negb (ScreenBuffer.isDirty buf (Z.of_nat y))) with false
          by (destruct fa, (ScreenBuffer.isDirty buf (Z.of_nat y)); cbn in *; congruence).
        rewrite index_of_nat, Hnth, Hr, IH, add_log_app. reflexivity.
    + exists calls. split; [exact Hp|]. split; [exact Hl|].
      intros w. unfold bind.
      replace (negb fa && negb (ScreenBuffer.isDirty buf (Z.of_nat y))) with true
        by (destruct fa, (ScreenBuffer.isDirty buf (Z.of_nat y)); cbn in *; congruence).
      cbn. apply IH.
Qed.

Lemma all_lines_loop (buf : ScreenBuffer.t) (fa : bool) (cols : Z) :
  exists calls,
    painted calls
    = filter (fun y => fa || ScreenBuffer.isDirty buf y)
             (range (List.length (ScreenBuffer.getAllLines buf)))
    /\ forallb is_line_call calls = true
    /\ forall w,
        for_each (range (List.length (ScreenBuffer.getAllLines buf))) (fun y =>
          if negb fa && negb (ScreenBuffer.isDirty buf y) then ret tt
          else renderLine (index (ScreenBuffer.getAllLines buf) y) y cols) w
        = (Returned tt, add_log calls w).
Proof.
  apply lines_loop. intros y Hy. apply in_seq in Hy. lia.
Qed.






Lemma bind_gets {W A B} (f : W -> A) (k : A -> Eff W B) (w : W) :
  bind (gets f) k w = k (f w) w.
Proof. reflexivity. Qed.

Lemma bind_ret {W A B} (a : A) (k : A -> Eff W B) (w : W) :
  bind (ret a) k w = k a w.
Proof. reflexivity. Qed.

Lemma bind_returned {W A B} {m : Eff W A} (k : A -> Eff W B) {w w' : W} {a : A} :
  m w = (Returned a, w') -> bind m k w = k a w'.
Proof. intros H. unfold bind. now rewrite H. Qed.

Lemma bind_thrown {W A B} {m : Eff W A} (k : A -> Eff W B) {w w' : W} {e : exn} :
  m w = (Thrown e, w') -> bind m k w = (Thrown e, w').
Proof. intros H. unfold bind. now rewrite H. Qed.

Lemma bind_assoc {W A B C} (m : Eff W A) (f : A -> Eff W B) (g : B -> Eff W C) (w : W) :
  bind (bind m f) g w = bind m (fun a => bind (f a) g) w.
Proof. unfold bind. destruct (m w) as [[a|e] w']; reflexivity. Qed.

Lemma resize_returns (cols rows : Z) (w : World) :
  resize cols rows w
  = (Returned tt,
     {| this := set_canvas
                  {| Canvas.width := cols * FontMetrics.width (metrics (this w))
                                     * devicePixelRatio (this w);
                     Canvas.height := rows * FontMetrics.height (metrics (this w))
                                      * devicePixelRatio (this w) |} (this w);
        window := window w; buffer := buffer w;
        log := log w ++ [FillBackground (cols * FontMetrics.width (metrics (this w)))
                                        (rows * FontMetrics.height (metrics (this w)))] |}).
Proof. reflexivity. Qed.

(** In a forced pass the cursor-invalidation step repaints nothing. *)
Lemma cursor_step_forced (c1 c2 x1 x2 : bool) (m1 m2 : Eff World unit) (w : World) :
  when c1 (bind (when (negb true && x1) m1)
                (fun _ => when c2 (when (negb true && x2) m2))) w
  = (Returned tt, w).
Proof. destruct c1, c2; reflexivity. Qed.

Lemma renderCursor_returns (x y : Z) (w : World) :
  renderCursor x y w = (Returned tt, add_log [DrawCursor (cursorStyle (this w)) x y] w).
Proof. reflexivity. Qed.

Lemma filter_true {A : Type} (l : list A) : filter (fun _ => true) l = l.
Proof. induction l; cbn; congruence. Qed.

Ltac finish_frame :=
  unfold cursor_call, cursor_point, add_log, with_log; cbn;
  destruct (Cursor.visible _ && cursorVisible _);
  unfold when, bind, ret, renderCursor, gets, set_this, clearDirty, modify,
    CanvasRenderer.emit; cbn;
  rewrite <- ?app_assoc; cbn; rewrite ?app_nil_r; reflexivity.

Lemma render_forced (fa : bool) (w : World) :
  fa || needsResize (this w) (ScreenBuffer.getDimensions (buffer w)) = true ->
  exists pre calls r,
    render fa w
    = (Returned tt,
       {| this := set_lastCursorPosition (cursor_point w) r;
          window := window w; buffer := buffer w;
          log := log w ++ pre ++ calls ++ cursor_call w |})
    /\ (pre = [] \/ exists cssWidth cssHeight, pre = [FillBackground cssWidth cssHeight])
    /\ (r = this w \/ exists c, r = set_canvas c (this w))
    /\ painted calls = range (List.length (ScreenBuffer.getAllLines (buffer w)))
    /\ forallb is_line_call calls = true
    /\ needsResize r (ScreenBuffer.getDimensions (buffer w)) = false.
Proof.
  intros Hf.
  destruct (all_lines_loop (buffer w) true
              (Dimensions.cols (ScreenBuffer.getDimensions (buffer w))))
    as (calls & Hp & Hl & Hloop).
  cbn [orb] in Hp. rewrite filter_true in Hp.
  unfold render.
  rewrite bind_gets; cbv beta zeta. rewrite bind_gets; cbv beta.
  destruct (needsResize _ _) eqn:Hr.
  - rewrite bind_assoc, (bind_returned _ (resize_returns _ _ w)), bind_ret.
    rewrite bind_gets; cbv beta zeta.
    rewrite (bind_returned _ (cursor_step_forced _ _ _ _ _ _ _)).
    rewrite (bind_returned _ (Hloop _)).
    rewrite bind_gets.
    eexists [_], calls, _. split.
    + finish_frame.
    + repeat split; eauto.
      unfold needsResize. cbn. now rewrite !Z.eqb_refl.
  - rewrite orb_false_r in Hf. subst fa.
    rewrite bind_ret, bind_gets; cbv beta zeta.
    rewrite (bind_returned _ (cursor_step_forced _ _ _ _ _ _ _)).
    rewrite (bind_returned _ (Hloop _)).
    rewrite bind_gets.
    exists [], calls, (this w). split.
    + finish_frame.
    + repeat split; eauto.
Qed.


Lemma index_row (b : ScreenBuffer.t) (y : Z) :
  is_row b y = true -> exists cells, index (ScreenBuffer.getAllLines b) y = Some cells.
Proof.
  unfold is_row, index. intros H. apply andb_prop in H. destruct H as [H0 H1].
  apply Z.leb_le in H0. apply Z.ltb_lt in H1.
  destruct (Z.ltb_spec y 0); [lia|].
  destruct (nth_error (ScreenBuffer.getAllLines b) (Z.to_nat y)) eqn:Hn; [eauto|].
  apply nth_error_None in Hn. lia.
Qed.

Lemma index_not_row (b : ScreenBuffer.t) (y : Z) :
  is_row b y = false -> index (ScreenBuffer.getAllLines b) y = None.
Proof.
  unfold is_row, index. intros H.
  destruct (Z.ltb_spec y 0); [reflexivity|].
  apply nth_error_None.
  destruct (Z.leb_spec 0 y); [|lia]. cbn in H. apply Z.ltb_ge in H. lia.
Qed.

Lemma renderLine_row (b : ScreenBuffer.t) (y cols : Z) :
  is_row b y = true ->
  exists ds, forallb is_DrawCell ds = true /\
    forall w, renderLine (index (ScreenBuffer.getAllLines b) y) y cols w
              = (Returned tt, add_log (ClearLine y cols :: ds) w).
Proof.
  intros H. destruct (index_row b y H) as (cells & ->). apply renderLine_some.
Qed.

Lemma renderLine_not_row (b : ScreenBuffer.t) (y cols : Z) (w : World) :
  is_row b y = false ->
  renderLine (index (ScreenBuffer.getAllLines b) y) y cols w
  = (Thrown (TypeError "undefined is not an object (evaluating 'line.length')"),
     add_log [ClearLine y cols] w).
Proof. intros H. rewrite (index_not_row b y H). reflexivity. Qed.

Lemma line_calls_of_row (y cols : Z) (ds : list call) :
  forallb is_DrawCell ds = true ->
  painted (ClearLine y cols :: ds) = [y]
  /\ forallb is_line_call (ClearLine y cols :: ds) = true.
Proof.
  intros H. rewrite painted_ClearLine, painted_DrawCell by assumption.
  cbn. rewrite DrawCell_line_calls by assumption. auto.
Qed.

(** The cursor-invalidation step of a pass that is not forced, when the
    lines it reads exist. *)
Lemma cursor_step_partial (w w0 : World) :
  forallb (is_row (buffer w)) (cursor_lines w) = true ->
  exists ccalls,
    painted ccalls = cursor_lines w
    /\ forallb is_line_call ccalls = true
    /\ when (cursorMoved (this w) (ScreenBuffer.getCursor (buffer w))
             || cursorBlink (this w))
          (bind
             (when (negb false
                    && negb (ScreenBuffer.isDirty (buffer w)
                               (Cursor.y (ScreenBuffer.getCursor (buffer w)))))
                (renderLine
                   (index (ScreenBuffer.getAllLines (buffer w))
                      (Cursor.y (ScreenBuffer.getCursor (buffer w))))
                   (Cursor.y (ScreenBuffer.getCursor (buffer w)))
                   (Dimensions.cols (ScreenBuffer.getDimensions (buffer w)))))
             (fun _ =>
                when (cursorMoved (this w) (ScreenBuffer.getCursor (buffer w))
                      && negb (Point.y (lastCursorPosition (this w))
                               =? Cursor.y (ScreenBuffer.getCursor (buffer w))))
                  (when (negb false
                         && negb (ScreenBuffer.isDirty (buffer w)
                                    (Point.y (lastCursorPosition (this w)))))
                     (renderLine
                        (index (ScreenBuffer.getAllLines (buffer w))
                           (Point.y (lastCursorPosition (this w))))
                        (Point.y (lastCursorPosition (this w)))
                        (Dimensions.cols (ScreenBuffer.getDimensions (buffer w)))))))
          w0
        = (Returned tt, add_log ccalls w0).
Proof.
  unfold cursor_lines.
  set (b := buffer w). set (cur := ScreenBuffer.getCursor b).
  set (cols := Dimensions.cols (ScreenBuffer.getDimensions b)).
  set (ly := Point.y (lastCursorPosition (this w))).
  destruct (cursorMoved (this w) cur || cursorBlink (this w)); cbn [when].
  2:{ intros _. exists []. rewrite add_log_nil. auto. }
  rewrite forallb_app. intros H. apply andb_prop in H. destruct H as [Hc Hl].
  cbn [negb andb].
  destruct (ScreenBuffer.isDirty b (Cursor.y cur)); cbn [negb when app] in *;
    destruct (cursorMoved (this w) cur && negb (ly =? Cursor.y cur)); cbn [when] in *;
    try destruct (ScreenBuffer.isDirty b ly); cbn [negb when forallb andb] in *.
  all: repeat match goal with
       | H : is_row ?b ?y && true = true |- _ =>
         rewrite andb_true_r in H;
         destruct (renderLine_row b y (Dimensions.cols (ScreenBuffer.getDimensions b)) H)
           as (? & ? & ?); clear H
       end.
  all: repeat match goal with
       | H : forall w, renderLine _ _ _ w = _ |- _ =>
         rewrite (bind_returned _ (H _)) || rewrite H; clear H
       | |- context [bind (ret tt) _ _] => rewrite bind_ret
       end.
  all: unfold ret; rewrite ?add_log_app.
  all: try (exists []; rewrite add_log_nil; repeat split; reflexivity).
  all: match goal with
       | |- exists c, _ /\ _ /\ (_, add_log ?l _) = _ => exists l
       end.
  all: rewrite ?painted_app, ?forallb_app;
    repeat match goal with
           | H : forallb is_DrawCell ?ds = true
             |- context [ClearLine ?y ?c :: ?ds] =>
             rewrite (proj1 (@line_calls_of_row y c ds H)),
                     (proj2 (@line_calls_of_row y c ds H)); clear H
           end; repeat split; reflexivity.
Qed.


(** The same step when one of the lines it reads does not exist. *)
Lemma cursor_step_throws (w w0 : World) :
  forallb (is_row (buffer w)) (cursor_lines w) = false ->
  exists ccalls,
    forallb is_line_call ccalls = true
    /\ when (cursorMoved (this w) (ScreenBuffer.getCursor (buffer w))
             || cursorBlink (this w))
          (bind
             (when (negb false
                    && negb (ScreenBuffer.isDirty (buffer w)
                               (Cursor.y (ScreenBuffer.getCursor (buffer w)))))
                (renderLine
                   (index (ScreenBuffer.getAllLines (buffer w))
                      (Cursor.y (ScreenBuffer.getCursor (buffer w))))
                   (Cursor.y (ScreenBuffer.getCursor (buffer w)))
                   (Dimensions.cols (ScreenBuffer.getDimensions (buffer w)))))
             (fun _ =>
                when (cursorMoved (this w) (ScreenBuffer.getCursor (buffer w))
                      && negb (Point.y (lastCursorPosition (this w))
                               =? Cursor.y (ScreenBuffer.getCursor (buffer w))))
                  (when (negb false
                         && negb (ScreenBuffer.isDirty (buffer w)
                                    (Point.y (lastCursorPosition (this w)))))
                     (renderLine
                        (index (ScreenBuffer.getAllLines (buffer w))
                           (Point.y (lastCursorPosition (this w))))
                        (Point.y (lastCursorPosition (this w)))
                        (Dimensions.cols (ScreenBuffer.getDimensions (buffer w)))))))
          w0
        = (Thrown (TypeError "undefined is not an object (evaluating 'line.length')"),
           add_log ccalls w0).
Proof.
  unfold cursor_lines.
  set (b := buffer w). set (cur := ScreenBuffer.getCursor b).
  set (cols := Dimensions.cols (ScreenBuffer.getDimensions b)).
  set (ly := Point.y (lastCursorPosition (this w))).
  destruct (cursorMoved (this w) cur || cursorBlink (this w)); cbn [when forallb].
  2:{ discriminate. }
  rewrite forallb_app. cbn [negb andb].
  destruct (ScreenBuffer.isDirty b (Cursor.y cur)); cbn [negb when app forallb andb];
    destruct (cursorMoved (this w) cur && negb (ly =? Cursor.y cur)); cbn [when forallb];
    try destruct (ScreenBuffer.isDirty b ly); cbn [negb when forallb andb];
    rewrite ?andb_true_r; try discriminate;
    try destruct (is_row b (Cursor.y cur)) eqn:Hc; cbn [andb];
    try discriminate; intros Hl; rewrite ?bind_ret.
  all: repeat match goal with
       | H : is_row ?b ?y = true |- _ =>
         destruct (renderLine_row b y (Dimensions.cols (ScreenBuffer.getDimensions b)) H)
           as (? & ? & ?); clear H
       end.
  all: repeat match goal with
       | H : forall w, renderLine _ _ _ w = _ |- _ =>
         rewrite (bind_returned _ (H _)); clear H
       end.
  all: repeat match goal with
       | H : is_row ?b ?y = false |- _ =>
         first [ rewrite (bind_thrown _ (@renderLine_not_row b y _ _ H))
               | rewrite (@renderLine_not_row b y _ _ H) ]; clear H
       end.
  all: rewrite ?add_log_app.
  all: match goal with
       | |- exists c, _ /\ (_, add_log ?l _) = _ => exists l
       end.
  all: rewrite ?forallb_app;
    repeat match goal with
           | H : forallb is_DrawCell ?ds = true
             |- context [ClearLine ?y ?c :: ?ds] =>
             rewrite (proj2 (@line_calls_of_row y c ds H)); clear H
           end; split; reflexivity.
Qed.

Lemma render_partial (w : World) :
  needsResize (this w) (ScreenBuffer.getDimensions (buffer w)) = false ->
  forallb (is_row (buffer w)) (cursor_lines w) = true ->
  exists ccalls calls,
    render false w
    = (Returned tt,
       {| this := set_lastCursorPosition (cursor_point w) (this w);
          window := window w; buffer := ScreenBuffer.clearDirty (buffer w);
          log := log w ++ ccalls ++ calls ++ cursor_call w ++ [ClearDirty] |})
    /\ painted ccalls = cursor_lines w
    /\ forallb is_line_call ccalls = true
    /\ painted calls
       = filter (ScreenBuffer.isDirty (buffer w))
                (range (List.length (ScreenBuffer.getAllLines (buffer w))))
    /\ forallb is_line_call calls = true.
Proof.
  intros Hr Hrows.
  destruct (all_lines_loop (buffer w) false
              (Dimensions.cols (ScreenBuffer.getDimensions (buffer w))))
    as (calls & Hp & Hl & Hloop).
  destruct (cursor_step_partial w w Hrows) as (ccalls & Hcp & Hcl & Hstep).
  unfold render.
  rewrite bind_gets; cbv beta zeta. rewrite bind_gets; cbv beta.
  rewrite Hr, bind_ret, bind_gets; cbv beta zeta.
  rewrite (bind_returned _ Hstep).
  rewrite (bind_returned _ (Hloop _)).
  rewrite bind_gets.
  exists ccalls, calls. split.
  - finish_frame.
  - repeat split; assumption.
Qed.

Lemma render_throws (w : World) :
  needsResize (this w) (ScreenBuffer.getDimensions (buffer w)) = false ->
  forallb (is_row (buffer w)) (cursor_lines w) = false ->
  exists ccalls,
    render false w
    = (Thrown (TypeError "undefined is not an object (evaluating 'line.length')"),
       add_log ccalls w)
    /\ forallb is_line_call ccalls = true.
Proof.
  intros Hr Hrows.
  destruct (cursor_step_throws w w Hrows) as (ccalls & Hcl & Hstep).
  unfold render.
  rewrite bind_gets; cbv beta zeta. rewrite bind_gets; cbv beta.
  rewrite Hr, bind_ret, bind_gets; cbv beta zeta.
  rewrite (bind_thrown _ Hstep).
  exists ccalls. auto.
Qed.


Lemma In_range (n : nat) (y : Z) : In y (range n) <-> 0 <= y < Z.of_nat n.
Proof.
  unfold range. rewrite in_map_iff. split.
  - intros (i & <- & Hi). apply in_seq in Hi. lia.
  - intros H. exists (Z.to_nat y). split; [lia|]. apply in_seq. lia.
Qed.

Lemma NoDup_range (n : nat) : NoDup (range n).
Proof.
  unfold range. apply Injective_map_NoDup.
  - intros a b. apply Nat2Z.inj.
  - apply seq_NoDup.
Qed.

Lemma is_row_spec (b : ScreenBuffer.t) (y : Z) :
  is_row b y = true
  <-> 0 <= y < Z.of_nat (List.length (ScreenBuffer.getAllLines b)).
Proof. unfold is_row. rewrite andb_true_iff, Z.leb_le, Z.ltb_lt. tauto. Qed.

Lemma line_calls_no_ClearDirty (l : list call) :
  forallb is_line_call l = true -> existsb is_ClearDirty l = false.
Proof.
  induction l as [|c l IH]; cbn; [reflexivity|].
  intros H. apply andb_prop in H. destruct H as [Hc Hl].
  destruct c; try discriminate; cbn; auto.
Qed.

Lemma line_calls_no_DrawCursor (l : list call) :
  forallb is_line_call l = true -> existsb is_DrawCursor l = false.
Proof.
  induction l as [|c l IH]; cbn; [reflexivity|].
  intros H. apply andb_prop in H. destruct H as [Hc Hl].
  destruct c; try discriminate; cbn; auto.
Qed.

Lemma cursor_call_spec (w : World) :
  painted (cursor_call w) = []
  /\ existsb is_ClearDirty (cursor_call w) = false
  /\ existsb is_DrawCursor (cursor_call w)
     = Cursor.visible (ScreenBuffer.getCursor (buffer w)) && cursorVisible (this w).
Proof.
  unfold cursor_call. destruct (Cursor.visible _ && cursorVisible _); cbn; auto.
Qed.

(** The lines that the cursor-invalidation step reads. *)
Lemma In_cursor_lines (w : World) (y : Z) :
  In y (cursor_lines w)
  <-> (cursorMoved (this w) (ScreenBuffer.getCursor (buffer w))
       || cursorBlink (this w)) = true
      /\ ScreenBuffer.isDirty (buffer w) y = false
      /\ (y = Cursor.y (ScreenBuffer.getCursor (buffer w))
          \/ y = Point.y (lastCursorPosition (this w))).
Proof.
  unfold cursor_lines, cursorMoved.
  set (b := buffer w). set (cur := ScreenBuffer.getCursor b).
  set (last := lastCursorPosition (this w)).
  destruct (Z.eqb_spec (Cursor.x cur) (Point.x last));
    destruct (Z.eqb_spec (Cursor.y cur) (Point.y last)) as [Ey|Ey];
    destruct (Z.eqb_spec (Point.y last) (Cursor.y cur)); try congruence;
    destruct (cursorBlink (this w)); cbn [negb orb andb];
    try destruct (ScreenBuffer.isDirty b (Cursor.y cur)) eqn:Dc;
    try destruct (ScreenBuffer.isDirty b (Point.y last)) eqn:Dl;
    cbn [negb app In]; rewrite <- ?Ey in *;
    intuition (subst; congruence).
Qed.

Lemma NoDup_cursor_lines (w : World) : NoDup (cursor_lines w).
Proof.
  unfold cursor_lines.
  destruct (_ || _); [|constructor].
  destruct (negb (ScreenBuffer.isDirty _ (Cursor.y _)));
    destruct (cursorMoved _ _ && negb (_ =? _)) eqn:Hm; cbn [app];
    try destruct (negb (ScreenBuffer.isDirty _ (Point.y _)));
    repeat constructor; cbn; try tauto.
  apply andb_prop in Hm. destruct Hm as [_ Hm].
  apply negb_true_iff, Z.eqb_neq in Hm. intuition congruence.
Qed.


Lemma frame_forced (fa : bool) (w : World) :
  fa || needsResize (this w) (ScreenBuffer.getDimensions (buffer w)) = true ->
  exists calls w',
    frame fa w = (Returned tt, calls, w')
    /\ painted calls = range (List.length (ScreenBuffer.getAllLines (buffer w)))
    /\ existsb is_ClearDirty calls = false
    /\ existsb is_DrawCursor calls
       = Cursor.visible (ScreenBuffer.getCursor (buffer w)) && cursorVisible (this w)
    /\ buffer w' = buffer w.
Proof.
  intros Hf.
  destruct (@render_forced fa (with_log [] w) Hf)
    as (pre & calls & r & Hrun & Hpre & _ & Hp & Hl & _).
  destruct (cursor_call_spec (with_log [] w)) as (Hcp & Hcc & Hcd).
  unfold frame. rewrite Hrun. cbn [fst snd log app buffer].
  eexists _, _. split; [reflexivity|].
  rewrite !painted_app, !existsb_app, Hp, Hcp, Hcc, Hcd, app_nil_r.
  rewrite (line_calls_no_ClearDirty _ Hl), (line_calls_no_DrawCursor _ Hl).
  destruct Hpre as [-> | (cw & ch & ->)]; cbn; auto.
Qed.

Lemma frame_partial (w : World) :
  needsResize (this w) (ScreenBuffer.getDimensions (buffer w)) = false ->
  forallb (is_row (buffer w)) (cursor_lines w) = true ->
  exists calls w',
    frame false w = (Returned tt, calls ++ [ClearDirty], w')
    /\ painted calls
       = cursor_lines w
         ++ filter (ScreenBuffer.isDirty (buffer w))
                   (range (List.length (ScreenBuffer.getAllLines (buffer w))))
    /\ existsb is_ClearDirty calls = false
    /\ existsb is_DrawCursor calls
       = Cursor.visible (ScreenBuffer.getCursor (buffer w)) && cursorVisible (this w)
    /\ buffer w' = ScreenBuffer.clearDirty (buffer w).
Proof.
  intros Hr Hrows.
  destruct (@render_partial (with_log [] w) Hr Hrows)
    as (ccalls & calls & Hrun & Hcp & Hcl & Hp & Hl).
  destruct (cursor_call_spec (with_log [] w)) as (Hkp & Hkc & Hkd).
  unfold frame. rewrite Hrun. cbn [fst snd log app buffer].
  exists (ccalls ++ calls ++ cursor_call (with_log [] w)). eexists.
  split; [rewrite <- !app_assoc; reflexivity|].
  rewrite !painted_app, !existsb_app, Hp, Hcp, Hkp, Hkc, Hkd, app_nil_r.
  rewrite (line_calls_no_ClearDirty _ Hl), (line_calls_no_DrawCursor _ Hl),
    (line_calls_no_ClearDirty _ Hcl), (line_calls_no_DrawCursor _ Hcl).
  cbn. auto.
Qed.

Lemma frame_throws (w : World) :
  needsResize (this w) (ScreenBuffer.getDimensions (buffer w)) = false ->
  forallb (is_row (buffer w)) (cursor_lines w) = false ->
  exists calls w',
    frame false w
    = (Thrown (TypeError "undefined is not an object (evaluating 'line.length')"),
       calls, w')
    /\ existsb is_ClearDirty calls = false
    /\ buffer w' = buffer w.
Proof.
  intros Hr Hrows.
  destruct (@render_throws (with_log [] w) Hr Hrows) as (ccalls & Hrun & Hcl).
  unfold frame. rewrite Hrun. cbn [fst snd log app buffer add_log with_log].
  eexists _, _. split; [reflexivity|].
  split; [apply line_calls_no_ClearDirty, Hcl | reflexivity].
Qed.

(** What a pass that is not forced repaints, on the frames whose cursor
    lines exist.  When the surface already has the
    size of the grid, and the cursor's current and previous lines are lines
    of the snapshot whenever the cursor moved or blinks, the frame
    completes and repaints, each once, exactly the lines that are dirty
    and, if the cursor moved or blinks, the cursor's current and previous
    lines. *)
Theorem partial_pass_repaints (w : World) :
  let b := buffer w in
  let cur := ScreenBuffer.getCursor b in
  let last := lastCursorPosition (this w) in
  let touched := cursorMoved (this w) cur || cursorBlink (this w) in
  needsResize (this w) (ScreenBuffer.getDimensions b) = false ->
  (touched = true ->
   is_row b (Cursor.y cur) = true /\ is_row b (Point.y last) = true) ->
  exists calls w',
    frame false w = (Returned tt, calls, w')
    /\ NoDup (painted calls)
    /\ forall y,
         In y (painted calls)
         <-> (is_row b y = true /\ ScreenBuffer.isDirty b y = true)
             \/ (touched = true /\ (y = Cursor.y cur \/ y = Point.y last)).
Proof.
  intros b cur last touched Hr Hrows.
  assert (Hall : forallb (is_row b) (cursor_lines w) = true).
  { apply forallb_forall. intros y Hy. apply In_cursor_lines in Hy.
    destruct Hy as (Ht & _ & [-> | ->]); apply Hrows; exact Ht. }
  destruct (frame_partial w Hr Hall) as (calls & w' & Hf & Hp & _).
  exists (calls ++ [ClearDirty]), w'. split; [exact Hf|].
  rewrite painted_app, Hp, app_nil_r. fold b. split.
  - apply NoDup_app.
    + apply NoDup_cursor_lines.
    + apply NoDup_filter, NoDup_range.
    + intros y Hy Hy'. apply In_cursor_lines in Hy. apply filter_In in Hy'.
      fold b in Hy. destruct Hy as (_ & Hd & _). destruct Hy' as (_ & Hd').
      congruence.
  - intros y. rewrite in_app_iff, In_cursor_lines, filter_In, In_range.
    fold b cur last touched. rewrite is_row_spec.
    split.
    + intros [(Ht & _ & Hy) | (Hy & Hd)]; [right | left]; auto.
    + intros [(Hy & Hd) | (Ht & Hy)]; [right; auto|].
      destruct (ScreenBuffer.isDirty b y) eqn:Hd; [right | left; auto].
      split; [|reflexivity]. apply is_row_spec.
      destruct (Hrows Ht) as [Hc Hl]. destruct Hy as [-> | ->]; assumption.
Qed.


(** C3, as the code has it.  A forced pass is one whose [forceAll] argument
    is true or that finds the surface of another size than the grid: it
    completes, repaints every line in order, never calls [clearDirty] and
    leaves the buffer as it was.  A pass that is not forced, and whose
    cursor lines exist, completes with [clearDirty] as its last call, and
    only that one. *)
Theorem clearDirty_after_partial_pass_only (forceAll : bool) (w : World) :
  let b := buffer w in
  let forced := forceAll || needsResize (this w) (ScreenBuffer.getDimensions b) in
  (forced = true ->
   exists calls w',
     frame forceAll w = (Returned tt, calls, w')
     /\ existsb is_ClearDirty calls = false
     /\ buffer w' = b
     /\ painted calls = range (List.length (ScreenBuffer.getAllLines b)))
  /\ (forced = false ->
      forallb (is_row b) (cursor_lines w) = true ->
      exists calls w',
        frame forceAll w = (Returned tt, calls ++ [ClearDirty], w')
        /\ existsb is_ClearDirty calls = false
        /\ buffer w' = ScreenBuffer.clearDirty b).
Proof.
  intros b forced. split.
  - intros Hf. destruct (frame_forced forceAll w Hf) as (calls & w' & H1 & H2 & H3 & _ & H5).
    exists calls, w'. auto.
  - intros Hf Hrows. apply orb_false_elim in Hf. destruct Hf as [-> Hr].
    destruct (frame_partial w Hr Hrows) as (calls & w' & H1 & _ & H3 & _ & H5).
    exists calls, w'. auto.
Qed.

(** ** The blink state *)

Lemma render_keeps_blink_state (fa : bool) (w : World) :
  window (snd (render fa w)) = window w
  /\ cursorVisible (this (snd (render fa w))) = cursorVisible (this w)
  /\ cursorBlink (this (snd (render fa w))) = cursorBlink (this w)
  /\ cursorBlinkInterval (this (snd (render fa w))) = cursorBlinkInterval (this w).
Proof.
  destruct (fa || needsResize (this w) (ScreenBuffer.getDimensions (buffer w))) eqn:Hf.
  - destruct (@render_forced fa w Hf) as (pre & calls & r & -> & _ & Hr & _).
    cbn. destruct Hr as [-> | (c & ->)]; auto.
  - apply orb_false_elim in Hf. destruct Hf as [-> Hr].
    destruct (forallb (is_row (buffer w)) (cursor_lines w)) eqn:Hrows.
    + destruct (@render_partial w Hr Hrows) as (? & ? & -> & _). cbn. auto.
    + destruct (@render_throws w Hr Hrows) as (? & -> & _). cbn. auto.
Qed.

Lemma existsb_eqb_In (id : nat) (l : list nat) :
  existsb (Nat.eqb id) l = true -> In id l.
Proof.
  intros H. apply existsb_exists in H. destruct H as (x & Hx & He).
  apply Nat.eqb_eq in He. now subst.
Qed.

(** Every operation keeps the cursor visible while no timer is set. *)
Lemma exec_blink_inv (o : op) (w : World) :
  blink_inv w -> blink_inv (snd (exec o w)).
Proof.
  unfold blink_inv. intros Hinv.
  destruct o as [b | fa | cols rows | m | style | enabled | | | id | | ]; cbn [exec].
  - exact Hinv.
  - destruct (render_keeps_blink_state fa w) as (-> & -> & _). exact Hinv.
  - exact Hinv.
  - exact Hinv.
  - exact Hinv.
  - unfold setCursorBlink, bind, gets.
    destruct enabled, (cursorBlink (this w)) eqn:Hb; cbn; auto.
    + intros H. destruct (Window.timers (window w)); discriminate.
    + unfold stopCursorBlink, bind, gets. cbn.
      destruct (cursorBlinkInterval (this w)); cbn; auto.
  - exact Hinv.
  - unfold dispose, stopCursorBlink, bind, gets.
    destruct (cursorBlinkInterval (this w)); cbn; auto.
  - unfold tick, bind, gets, when. cbn.
    destruct (existsb (Nat.eqb id) (Window.timers (window w))) eqn:Hid; cbn; auto.
    intros H. apply existsb_eqb_In in Hid. rewrite H in Hid. destruct Hid.
  - cbn. intros H. destruct (Window.timers (window w)); discriminate.
  - unfold stopCursorBlink, bind, gets.
    destruct (cursorBlinkInterval (this w)); cbn; auto.
Qed.

Lemma create_blink_inv (cv : Canvas.t) (options : RendererOptions) (dpr : Z)
      (measured : FontMetrics.t) (handle : nat) (buf : ScreenBuffer.t) :
  blink_inv (create cv options dpr measured handle buf).
Proof.
  unfold blink_inv, create.
  destruct (opt_cursorBlink options) as [[|]|]; cbn; auto.
Qed.


Lemma exec_owns_timer (o : op) (w : World) :
  is_private o = false -> owns_timer w -> owns_timer (snd (exec o w)).
Proof.
  unfold owns_timer. intros Hpub (Ht & Hv & Hb).
  destruct o as [b | fa | cols rows | m | style | enabled | | | id | | ];
    try discriminate Hpub; cbn [exec]; try (cbn; auto; fail).
  - destruct (render_keeps_blink_state fa w) as (-> & -> & -> & ->). auto.
  - unfold setCursorBlink, bind, gets.
    destruct enabled, (cursorBlink (this w)) eqn:Hbl; cbn.
    + rewrite Hbl. auto.
    + rewrite (Hb eq_refl) in Ht. rewrite Ht. cbn. repeat split; discriminate.
    + unfold stopCursorBlink, bind, gets. cbn.
      destruct (cursorBlinkInterval (this w)) as [id|] eqn:Hi; cbn.
      * rewrite Ht. cbn. rewrite Nat.eqb_refl. cbn. auto.
      * rewrite Hi. auto.
    + rewrite Hbl. auto.
  - unfold dispose, stopCursorBlink, bind, gets.
    destruct (cursorBlinkInterval (this w)) as [id|] eqn:Hi; cbn.
    + rewrite Ht. cbn. rewrite Nat.eqb_refl. cbn. repeat split; auto.
    + rewrite Hi. repeat split; auto.
  - unfold tick, bind, gets, when. cbn.
    destruct (existsb (Nat.eqb id) (Window.timers (window w))) eqn:Hid; cbn; auto.
    repeat split; auto. intros Hn. rewrite Hn in Ht. rewrite Ht in Hid. discriminate.
Qed.

Lemma create_owns_timer (cv : Canvas.t) (options : RendererOptions) (dpr : Z)
      (measured : FontMetrics.t) (handle : nat) (buf : ScreenBuffer.t) :
  owns_timer (create cv options dpr measured handle buf).
Proof.
  unfold owns_timer, create.
  destruct (opt_cursorBlink options) as [[|]|]; cbn; repeat split; auto; discriminate.
Qed.

Lemma run_owns_timer (ops : list op) (w : World) :
  existsb is_private ops = false -> owns_timer w -> owns_timer (run ops w).
Proof.
  revert w. induction ops as [|o ops IH]; intros w Hpub Hw; [exact Hw|].
  cbn in Hpub. apply orb_false_elim in Hpub. destruct Hpub as [Ho Hops].
  cbn. apply IH; [exact Hops|]. apply exec_owns_timer; assumption.
Qed.

(** ** The cursor lines in sessions that leave the size to [render] *)

Lemma same_rows (r : t) (d1 d2 : Dimensions.t) :
  FontMetrics.height (metrics r) * devicePixelRatio r <> 0 ->
  needsResize r d1 = false -> needsResize r d2 = false ->
  Dimensions.rows d1 = Dimensions.rows d2.
Proof.
  unfold needsResize. intros Hnz H1 H2.
  apply orb_false_elim in H1. destruct H1 as [_ H1].
  apply orb_false_elim in H2. destruct H2 as [_ H2].
  apply negb_false_iff, Z.eqb_eq in H1. apply negb_false_iff, Z.eqb_eq in H2.
  rewrite H1 in H2. rewrite <- !Z.mul_assoc in H2.
  apply Z.mul_cancel_r in H2; [congruence | exact Hnz].
Qed.

Lemma contract_rows (b : ScreenBuffer.t) :
  contract b = true ->
  is_row b (Cursor.y (ScreenBuffer.getCursor b)) = true
  /\ Z.of_nat (List.length (ScreenBuffer.getAllLines b))
     = Dimensions.rows (ScreenBuffer.getDimensions b).
Proof.
  unfold contract. intros H. apply andb_prop in H. destruct H as [H1 H2].
  apply Z.eqb_eq in H2. auto.
Qed.

Lemma safe_cursor_lines (w : World) :
  last_line_safe w ->
  needsResize (this w) (ScreenBuffer.getDimensions (buffer w)) = false ->
  forallb (is_row (buffer w)) (cursor_lines w) = true.
Proof.
  intros (Hc & _ & Hlast) Hr. apply forallb_forall. intros y Hy.
  apply In_cursor_lines in Hy. destruct Hy as (_ & _ & [-> | ->]).
  - apply contract_rows, Hc.
  - apply Hlast; assumption.
Qed.

(** After a frame on the grid [b0], the cursor line of [b0] is a line of
    every grid with as many rows. *)
Lemma cursor_row_of_same_size (r : t) (b0 b : ScreenBuffer.t) :
  FontMetrics.height (metrics r) * devicePixelRatio r <> 0 ->
  contract b0 = true -> contract b = true ->
  needsResize r (ScreenBuffer.getDimensions b0) = false ->
  needsResize r (ScreenBuffer.getDimensions b) = false ->
  is_row b (Cursor.y (ScreenBuffer.getCursor b0)) = true.
Proof.
  intros Hnz H0 Hb Hr0 Hr.
  pose proof (same_rows _ _ _ Hnz Hr0 Hr) as Hrows.
  destruct (contract_rows _ H0) as [Hc0 Hl0]. destruct (contract_rows _ Hb) as [_ Hl].
  apply is_row_spec. apply is_row_spec in Hc0. lia.
Qed.

Lemma exec_last_line_safe (o : op) (w : World) :
  benign o = true -> last_line_safe w -> last_line_safe (snd (exec o w)).
Proof.
  intros Hben Hsafe. pose proof Hsafe as (Hc & Hnz & Hlast).
  destruct o as [b | fa | cols rows | m | style | enabled | | | id | | ];
    try discriminate Hben; cbn [exec].
  - cbn. repeat split; auto.
  - destruct (fa || needsResize (this w) (ScreenBuffer.getDimensions (buffer w))) eqn:Hf.
    + destruct (@render_forced fa w Hf) as (pre & calls & r & -> & _ & Hr & _ & _ & Hsize).
      cbn [snd]. unfold last_line_safe. cbn.
      assert (Hm : metrics r = metrics (this w)
                   /\ devicePixelRatio r = devicePixelRatio (this w))
        by (destruct Hr as [-> | (c & ->)]; auto).
      destruct Hm as [Hm Hd].
      split; [exact Hc|]. split; [now rewrite Hm, Hd|].
      intros b Hb Hrb.
      apply (@cursor_row_of_same_size r (buffer w) b);
        [now rewrite Hm, Hd | exact Hc | exact Hb | exact Hsize | exact Hrb].
    + apply orb_false_elim in Hf. destruct Hf as [-> Hr].
      pose proof (safe_cursor_lines Hsafe Hr) as Hrows.
      destruct (@render_partial w Hr Hrows) as (? & ? & -> & _).
      cbn [snd]. unfold last_line_safe. cbn.
      split; [|split; [exact Hnz|]].
      * unfold contract, is_row in *. exact Hc.
      * intros b Hb Hrb.
        apply (@cursor_row_of_same_size (this w) (buffer w) b);
          [exact Hnz | exact Hc | exact Hb | exact Hr | exact Hrb].
  - cbn. repeat split; auto.
  - unfold setCursorBlink, stopCursorBlink, bind, gets.
    destruct enabled, (cursorBlink (this w)); cbn;
      try (destruct (cursorBlinkInterval (this w)); cbn);
      unfold last_line_safe; cbn; auto.
  - cbn. exact Hsafe.
  - unfold dispose, stopCursorBlink, bind, gets.
    destruct (cursorBlinkInterval (this w)); cbn; unfold last_line_safe; cbn; auto.
  - unfold tick, bind, gets, when. cbn.
    destruct (existsb (Nat.eqb id) (Window.timers (window w))); cbn; auto.
  - cbn. unfold last_line_safe. cbn. auto.
  - unfold stopCursorBlink, bind, gets.
    destruct (cursorBlinkInterval (this w)); cbn; unfold last_line_safe; cbn; auto.
Qed.

Lemma run_last_line_safe (ops : list op) (w : World) :
  forallb benign ops = true -> last_line_safe w -> last_line_safe (run ops w).
Proof.
  revert w. induction ops as [|o ops IH]; intros w Hben Hw; [exact Hw|].
  cbn in Hben. apply andb_prop in Hben. destruct Hben as [Ho Hops].
  cbn. apply IH; [exact Hops|]. apply exec_last_line_safe; assumption.
Qed.

Lemma create_last_line_safe (cv : Canvas.t) (options : RendererOptions) (dpr : Z)
      (measured : FontMetrics.t) (handle : nat) (buf : ScreenBuffer.t) :
  let w := create cv options dpr measured handle buf in
  contract buf = true ->
  FontMetrics.height (metrics (this w)) * devicePixelRatio (this w) <> 0 ->
  last_line_safe w.
Proof.
  unfold create, last_line_safe.
  destruct (opt_cursorBlink options) as [[|]|]; cbn; intros Hc Hnz;
    (split; [exact Hc|]; split; [exact Hnz|]; intros b Hb _;
     destruct (contract_rows _ Hb) as [Hrow _];
     apply is_row_spec in Hrow; apply Z.ltb_lt; lia).
Qed.

(** When the size of the canvas is left to [render] (no direct [resize],
    no new measure of the font), the metrics and the pixel ratio are not
    zero and the buffer keeps its contract, no frame reads a line that the
    grid does not have: every frame completes.  This is the case that
    [render] provides for, by forcing the pass that follows a change of
    size. *)
Lemma frames_that_render_resizes_complete
      (cv : Canvas.t) (options : RendererOptions) (dpr : Z)
      (measured : FontMetrics.t) (handle : nat) (buf : ScreenBuffer.t)
      (ops : list op) (forceAll : bool) :
  let w0 := create cv options dpr measured handle buf in
  contract buf = true ->
  FontMetrics.height (metrics (this w0)) * devicePixelRatio (this w0) <> 0 ->
  forallb benign ops = true ->
  fst (render forceAll (run ops w0)) = Returned tt.
Proof.
  intros w0 Hc Hnz Hben.
  assert (Hsafe : last_line_safe (run ops w0))
    by (apply run_last_line_safe; [exact Hben | now apply create_last_line_safe]).
  set (w := run ops w0) in *.
  destruct (forceAll || needsResize (this w) (ScreenBuffer.getDimensions (buffer w)))
    eqn:Hf.
  - destruct (@render_forced forceAll w Hf) as (? & ? & ? & -> & _). reflexivity.
  - apply orb_false_elim in Hf. destruct Hf as [-> Hr].
    destruct (@render_partial w Hr (safe_cursor_lines Hsafe Hr)) as (? & ? & -> & _).
    reflexivity.
Qed.

Lemma dispose_clears_handle (w : World) :
  cursorBlinkInterval (this (snd (dispose w))) = None
  /\ cursorVisible (this (snd (dispose w))) = true.
Proof.
  unfold dispose, stopCursorBlink, bind, gets.
  destruct (cursorBlinkInterval (this w)) eqn:Hi; cbn; auto.
Qed.

(** The invariant of the blink state.  The cursor is visible whenever no
    blink timer is set: this holds of a new renderer and every operation
    keeps it (the frame, the public methods, the tick of a timer, and the
    private start and stop of the blinking).  In a session of public
    operations the renderer moreover holds the only timer, so that with
    blinking disabled, and after [dispose], no timer is set and the cursor
    is visible.  A frame that completes (a forced one, or one whose cursor
    lines exist) paints the cursor exactly when the buffer and the
    renderer both show it. *)
Theorem cursor_visible_without_timer :
  (forall cv options dpr measured handle buf,
      blink_inv (create cv options dpr measured handle buf))
  /\ (forall o w, blink_inv w -> blink_inv (snd (exec o w)))
  /\ (forall cv options dpr measured handle buf ops,
        existsb is_private ops = false ->
        let w := run ops (create cv options dpr measured handle buf) in
        (cursorBlink (this w) = false ->
         Window.timers (window w) = [] /\ cursorVisible (this w) = true)
        /\ Window.timers (window (snd (dispose w))) = []
        /\ cursorVisible (this (snd (dispose w))) = true)
  /\ (forall forceAll w,
        (forceAll || needsResize (this w) (ScreenBuffer.getDimensions (buffer w)) = true
         \/ forallb (is_row (buffer w)) (cursor_lines w) = true) ->
        exists calls w',
          frame forceAll w = (Returned tt, calls, w')
          /\ existsb is_DrawCursor calls
             = Cursor.visible (ScreenBuffer.getCursor (buffer w))
               && cursorVisible (this w)).
Proof.
  split; [exact create_blink_inv|].
  split; [exact exec_blink_inv|].
  split.
  - intros cv options dpr measured handle buf ops Hpub w.
    assert (Hw : owns_timer w)
      by (apply run_owns_timer; [exact Hpub | apply create_owns_timer]).
    split.
    + intros Hb. destruct Hw as (Ht & Hv & Hh).
      rewrite (Hh Hb) in Ht. auto.
    + assert (Hd : owns_timer (snd (exec Dispose w)))
        by (apply exec_owns_timer; [reflexivity | exact Hw]).
      cbn [exec] in Hd. destruct Hd as (Ht & _ & _).
      destruct (dispose_clears_handle w) as [Hi Hv].
      rewrite Hi in Ht. auto.
  - intros forceAll w H.
    destruct (forceAll || needsResize (this w) (ScreenBuffer.getDimensions (buffer w)))
      eqn:Hf.
    + destruct (frame_forced forceAll w Hf) as (calls & w' & H1 & _ & _ & H4 & _).
      exists calls, w'. auto.
    + destruct H as [H | Hrows]; [discriminate|].
      apply orb_false_elim in Hf. destruct Hf as [-> Hr].
      destruct (frame_partial w Hr Hrows) as (calls & w' & H1 & _ & _ & H4 & _).
      exists (calls ++ [ClearDirty]), w'. split; [exact H1|].
      rewrite existsb_app, H4. cbn. apply orb_false_r.
Qed.

End RendererProperties.

(* ===================================================================== *)
(** * Concrete runs *)
(* ===================================================================== *)

Section Runs.

Import InputHandler InputSession.

(** The cases of the handler's unit tests. *)

Example encodes_lowercase_letters :
  let w := fresh quiet_encoder in
  keydown ascii_decode (this w) (container w)
          (createKeyEvent "KeyA" (lit "a") false false false false)
  = (Returned tt, [PreventDefault; OnData (lit "a")]).
Proof. reflexivity. Qed.

Example encodes_Enter :
  let w := fresh quiet_encoder in
  keydown ascii_decode (this w) (container w)
          (createKeyEvent "Enter" (lit "Enter") false false false false)
  = (Returned tt, [PreventDefault; OnData [13%N]]).
Proof. reflexivity. Qed.

Example ignores_unmapped_keys :
  let w := fresh quiet_encoder in
  keydown ascii_decode (this w) (container w)
          (createKeyEvent "Unknown" (lit "Unknown") false false false false)
  = (Returned tt, []).
Proof. reflexivity. Qed.

Example Cmd_C_allows_copy :
  let w := fresh quiet_encoder in
  keydown ascii_decode (this w) (container w)
          (createKeyEvent "KeyC" (lit "c") false false false true)
  = (Returned tt, []).
Proof. reflexivity. Qed.

Example ignores_paste_with_no_clipboard_data :
  let w := fresh quiet_encoder in
  paste (this w) (container w) (createClipboardEvent None)
  = (Returned tt, [PreventDefault; StopPropagation;
                   ConsoleWarn "No clipboard data available"]).
Proof. reflexivity. Qed.

Example delivers_to_the_listeners :
  let w := fresh quiet_encoder in
  listeners (container w) = [("keydown", HandleKeyDown); ("paste", HandlePaste)]%string
  /\ log (snd (run ascii_decode
                  [Deliver (KeydownEvent
                              (createKeyEvent "KeyZ" (lit "z") false false false false));
                   Deliver (PasteEvent (createClipboardEvent (Some (lit "ls"))))]
                  w))
     = log w ++ [PreventDefault; OnData (lit "z");
                 PreventDefault; StopPropagation; OnData (lit "ls")].
Proof. split; reflexivity. Qed.

Example dispose_removes_listeners :
  let w := snd (dispose (fresh quiet_encoder)) in
  isActive (this w) = false /\ listeners (container w) = [].
Proof. split; reflexivity. Qed.

(** AltGr+Q on a German layout gives "@": control and alt are both held,
    and the key goes the literal-character way. *)
Lemma altgr_takes_fast_path :
  let e := createKeyEvent "KeyQ" (lit "@") true true false false in
  let w := fresh quiet_encoder in
  List.length (key e) = 1%nat
  /\ ctrlKey e = true /\ altKey e = true
  /\ keydown ascii_decode (this w) (container w) e
     = (Returned tt, [PreventDefault; OnData (lit "@")]).
Proof. vm_compute. repeat split. Qed.

Lemma fast_path_boundary_witness :
  let e := createKeyEvent "KeyA" (lit "A") false false true false in
  let w := fresh quiet_encoder in
  keydown ascii_decode (this w) (container w) e
  = (Returned tt, prelude (this w) e ++ [PreventDefault; OnData (key e)])
  <-> metaKey e = false /\ ctrlKey e = altKey e
      /\ (ctrlKey e && String.eqb (code e) "KeyV") = false.
Proof.
  apply (@fast_path_boundary ascii_decode (this (fresh quiet_encoder))
           (container (fresh quiet_encoder))
           (createKeyEvent "KeyA" (lit "A") false false true false));
    reflexivity.
Defined.

Lemma canonical_sequences_witness :
  let e := createKeyEvent "ArrowUp" (lit "ArrowUp") false false false false in
  let w := fresh quiet_encoder in
  keydown ascii_decode (this w) (container w) e
  = (Returned tt, prelude (this w) e ++ [PreventDefault; OnData [27; 91; 65]%N]).
Proof.
  apply (@canonical_sequences ascii_decode (this (fresh quiet_encoder))
           (container (fresh quiet_encoder))
           (createKeyEvent "ArrowUp" (lit "ArrowUp") false false false false)).
  - reflexivity.
  - reflexivity.
  - left. reflexivity.
  - vm_compute. discriminate.
  - do 3 right. left. reflexivity.
Defined.

Lemma paste_and_copy_chords_witness :
  let e := createKeyEvent "KeyV" (lit "v") true false false false in
  let w := fresh quiet_encoder in
  keydown ascii_decode (this w) (container w) e
  = (Returned tt, if isDisposed (this w) then [] else prelude (this w) e)
  /\ (forall data, ~ In (OnData data) (snd (keydown ascii_decode (this w) (container w) e)))
  /\ ~ In PreventDefault (snd (keydown ascii_decode (this w) (container w) e)).
Proof.
  apply (@paste_and_copy_chords ascii_decode (this (fresh quiet_encoder))
           (container (fresh quiet_encoder))
           (createKeyEvent "KeyV" (lit "v") true false false false)).
  - reflexivity.
  - left. reflexivity.
Defined.

Lemma paste_payload_witness :
  let w := fresh quiet_encoder in
  paste (this w) (container w) (createClipboardEvent (Some (lit "Hello, World!")))
  = (Returned tt, [PreventDefault; StopPropagation; OnData (lit "Hello, World!")]).
Proof.
  apply (@paste_payload (this (fresh quiet_encoder)) (container (fresh quiet_encoder))
           (createClipboardEvent (Some (lit "Hello, World!")))).
  reflexivity.
Defined.

Lemma encoder_failure_is_contained_witness :
  let e := createKeyEvent "KeyA" (lit "a") true false false false in
  let w := fresh failing_encoder in
  keydown ascii_decode (this w) (container w) e
  = (Returned tt, [ConsoleWarn "Failed to encode key:"]).
Proof.
  apply (@encoder_failure_is_contained ascii_decode (this (fresh failing_encoder))
           (container (fresh failing_encoder))
           (createKeyEvent "KeyA" (lit "a") true false false false) Key.A);
    reflexivity.
Defined.

End Runs.

Section Frames.

Import CanvasRenderer RenderSession.

Local Open Scope Z_scope.

(** C8.  The first frame of a grid of 24 rows leaves the cursor's line,
    23, as the previous line.  The grid then shrinks to 10 rows: the
    embedder resizes the canvas with the public [resize], and the buffer,
    which keeps its contract, has its cursor on line 5 and reports no line
    dirty.  The next frame finds the surface of the right size, so it is
    not forced, and its cursor-invalidation step reads [lines[5]] and
    [lines[23]]: the second is outside the 10 lines, [undefined], and
    [renderLine] throws on it. *)
Theorem stale_cursor_line_is_read :
  let w := run (shrink clean) started in
  contract (buffer started) = true
  /\ contract (buffer w) = true
  /\ needsResize (this w) (ScreenBuffer.getDimensions (buffer w)) = false
  /\ Point.y (lastCursorPosition (this w)) = 23
  /\ cursor_lines w = [5; 23]
  /\ is_row (buffer w) 23 = false
  /\ index (ScreenBuffer.getAllLines (buffer w)) 23 = None
  /\ fst (render false w)
     = Thrown (TypeError "undefined is not an object (evaluating 'line.length')").
Proof. vm_compute. repeat split. Qed.

(** C2.  In the same session with line 2 of the shrunk grid dirty: the
    surface has the size of the grid and the pass is not forced, yet the
    frame repaints line 5, clears the band of a line 23 that the grid does
    not have, and throws before the dirty line 2 is repainted. *)
Theorem stale_line_aborts_partial_pass :
  let w := run (shrink (Z.eqb 2)) started in
  needsResize (this w) (ScreenBuffer.getDimensions (buffer w)) = false
  /\ is_row (buffer w) 2 = true
  /\ ScreenBuffer.isDirty (buffer w) 2 = true
  /\ fst (fst (frame false w))
     = Thrown (TypeError "undefined is not an object (evaluating 'line.length')")
  /\ painted (snd (fst (frame false w))) = [5; 23].
Proof. vm_compute. repeat split. Qed.

(** C9.  In the session of C8 blinking was never enabled: no timer is
    set, the renderer holds no handle and its visibility flag is true, and
    the buffer, which keeps its contract, reports the cursor visible.  Yet
    the frame throws on the line 23 that the grid no longer has, before it
    reaches the cursor: the cursor is not painted.  It is not painted
    after [dispose] either, nor on the frames that follow. *)
Theorem visible_cursor_is_not_painted :
  let w := run (shrink clean) started in
  let d := snd (dispose w) in
  let again := snd (frame false w) in
  cursorBlink (this w) = false
  /\ Window.timers (window w) = []
  /\ cursorBlinkInterval (this w) = None
  /\ cursorVisible (this w) = true
  /\ Cursor.visible (ScreenBuffer.getCursor (buffer w)) = true
  /\ contract (buffer w) = true
  /\ fst (fst (frame false w))
     = Thrown (TypeError "undefined is not an object (evaluating 'line.length')")
  /\ existsb is_DrawCursor (snd (fst (frame false w))) = false
  /\ cursorVisible (this d) = true
  /\ fst (fst (frame false d))
     = Thrown (TypeError "undefined is not an object (evaluating 'line.length')")
  /\ existsb is_DrawCursor (snd (fst (frame false d))) = false
  /\ fst (fst (frame false again))
     = Thrown (TypeError "undefined is not an object (evaluating 'line.length')")
  /\ existsb is_DrawCursor (snd (fst (frame false again))) = false.
Proof. vm_compute. repeat split. Qed.

(** The first frame on a new canvas, asked with [forceAll] false: the
    canvas is resized, every line repainted, [clearDirty] is not called
    and the lines stay dirty. *)
Lemma resized_frame_keeps_dirty_bits :
  let w := create new_canvas no_options 1 metrics_9x17 1 (grid 80 24 0 0 (fun _ => true)) in
  fst (fst (frame false w)) = Returned tt
  /\ painted (snd (fst (frame false w))) = range 24
  /\ existsb is_ClearDirty (snd (fst (frame false w))) = false
  /\ ScreenBuffer.isDirty (buffer (snd (frame false w))) 0 = true.
Proof. vm_compute. repeat split. Qed.

(** A second frame, after the cursor went from line 23 to line 7 and line
    2 became dirty. *)
Lemma partial_pass_repaints_witness :
  let w := run [Render false; Write (grid 80 24 3 7 (Z.eqb 2))] started in
  exists calls w',
    frame false w = (Returned tt, calls, w')
    /\ NoDup (painted calls)
    /\ forall y,
         In y (painted calls)
         <-> (is_row (buffer w) y = true /\ ScreenBuffer.isDirty (buffer w) y = true)
             \/ (cursorMoved (this w) (ScreenBuffer.getCursor (buffer w))
                 || cursorBlink (this w) = true
                 /\ (y = Cursor.y (ScreenBuffer.getCursor (buffer w))
                     \/ y = Point.y (lastCursorPosition (this w)))).
Proof.
  apply (@partial_pass_repaints
           (run [Render false; Write (grid 80 24 3 7 (Z.eqb 2))] started)).
  - vm_compute. reflexivity.
  - intros _. split; vm_compute; reflexivity.
Defined.

Lemma clearDirty_after_partial_pass_only_witness :
  let w := run [Render false; Write (grid 80 24 3 7 (Z.eqb 2))] started in
  exists calls w',
    frame false w = (Returned tt, calls ++ [ClearDirty], w')
    /\ existsb is_ClearDirty calls = false
    /\ buffer w' = ScreenBuffer.clearDirty (buffer w).
Proof.
  apply (proj2 (@clearDirty_after_partial_pass_only false
                  (run [Render false; Write (grid 80 24 3 7 (Z.eqb 2))] started))).
  - vm_compute. reflexivity.
  - vm_compute. reflexivity.
Defined.

(** Blinking from the start, a tick that hides the cursor, then blinking
    is turned off. *)
Lemma cursor_visible_without_timer_witness :
  let w := run [Tick 1%nat; SetCursorBlink false]
               (create new_canvas blink_options 1 metrics_9x17 1%nat (grid 80 24 0 0 clean)) in
  cursorBlink (this w) = false
  /\ Window.timers (window w) = [] /\ cursorVisible (this w) = true.
Proof.
  split; [vm_compute; reflexivity|].
  apply (proj1 (proj1 (proj2 (proj2 cursor_visible_without_timer))
                  new_canvas blink_options 1 metrics_9x17 1%nat (grid 80 24 0 0 clean)
                  [Tick 1%nat; SetCursorBlink false] eq_refl)).
  vm_compute. reflexivity.
Defined.

End Frames.

(* ===================================================================== *)
(** * More on the input handler *)
(* ===================================================================== *)

Section InputHandlerFacts.

Import InputHandler InputSession InputFacts.

Variable decode : list Init.Byte.byte -> jsstring.

#[local] Arguments mapKeyCode : simpl never.
#[local] Arguments simpleOutput : simpl never.
#[local] Arguments utf8_hint : simpl never.
#[local] Arguments String.eqb : simpl never.

Ltac open_handler :=
  unfold keydown, paste, observe, handleKeyDown, handlePaste, encodeKey,
    InputHandler.emit, customHandled, prelude, when, bind, gets, modify, ret,
    try_catch in *;
  cbn in *.

Ltac split_cases :=
  repeat match goal with
         | |- context [match ?x with _ => _ end] =>
           lazymatch x with
           | context [match _ with _ => _ end] => fail
           | _ => destruct x eqn:?; cbn in *; try congruence
           end
         end.

(** X1.  With callbacks that return, a key-down never throws, whatever the
    handler, the encoder, the container and the event: [handleKeyDown]
    returns normally, emits at most one chunk of output, and never rings
    the bell. *)
Theorem one_chunk_per_key (h : InputHandler.t) (c : Container) (e : KeyboardEvent) :
  fst (keydown decode h c e) = Returned tt
  /\ (List.length (chunks (snd (keydown decode h c e))) <= 1)%nat
  /\ existsb is_OnBell (snd (keydown decode h c e)) = false.
Proof.
  open_handler. split_cases; repeat split; cbn; auto.
Qed.


(** X2.  On a live handler with a raw-key callback, a key-down first passes
    the key to that callback, and does so once: nothing precedes the call
    and it is not repeated.  A disposed handler, and one without the
    callback, never make it. *)
Theorem raw_key_comes_first (h : InputHandler.t) (c : Container) (e : KeyboardEvent) :
  (isDisposed h = false -> onKeyCallback h = true ->
   exists rest,
     snd (keydown decode h c e) = OnKey (key e) :: rest
     /\ existsb is_OnKey rest = false)
  /\ (isDisposed h = true \/ onKeyCallback h = false ->
      existsb is_OnKey (snd (keydown decode h c e)) = false).
Proof.
  destruct h as [enc onKey custom kd kp pl disposed]. cbn [isDisposed onKeyCallback].
  split.
  - intros -> ->. open_handler.
    split_cases; (eexists; split; [reflexivity|]); cbn; split_cases; reflexivity.
  - intros [-> | ->]; open_handler; [reflexivity|].
    destruct disposed; [reflexivity|]. cbn. split_cases; reflexivity.
Qed.

(** X3.  When the custom handler of a live handler returns [true], the
    key-down suppresses the default and stops: after the raw-key callback
    (if registered) and the custom handler, [preventDefault] is the only
    call; no output is emitted and the propagation is not stopped. *)
Theorem custom_handler_consumes (h : InputHandler.t) (c : Container) (e : KeyboardEvent) :
  isDisposed h = false ->
  customHandled h e = true ->
  keydown decode h c e
  = (Returned tt,
     (if onKeyCallback h then [OnKey (key e)] else [])
     ++ [CustomKeyEventHandler; PreventDefault]).
Proof.
  intros Hlive Hc.
  destruct h as [enc onKey custom kd kp pl disposed]. cbn in Hlive. subst.
  open_handler. destruct custom as [f|]; [|discriminate].
  destruct onKey; cbn; rewrite Hc; reflexivity.
Qed.

(** X4.  A key-down whose key is not a literal character and for whose
    code [KEY_MAP[code]] is [undefined] (the code is no property of the
    table and no name inherited from [Object.prototype], so [mapKeyCode]
    returns [null]) is ignored: nothing follows the opening calls, and the
    default is not suppressed. *)
Theorem unmapped_key_is_ignored (h : InputHandler.t) (c : Container) (e : KeyboardEvent) :
  isDisposed h = false ->
  customHandled h e = false ->
  isPrintableCharacter e = false ->
  inherited (code e) = false ->
  mapKeyCode (code e) = None ->
  keydown decode h c e = (Returned tt, prelude h e).
Proof.
  intros Hlive Hc Hp _ Hm.
  destruct h as [enc onKey custom kd kp pl disposed]. cbn in Hlive. subst.
  open_handler. rewrite Hp, Hm.
  destruct onKey, custom as [f|]; cbn in *; try rewrite Hc; cbn;
    destruct ((ctrlKey e || metaKey e) && String.eqb (code e) "KeyV"),
             (metaKey e && String.eqb (code e) "KeyC"); reflexivity.
Qed.

(** X5.  The editing keys of the table of canonical sequences: with no
    modifier or shift only, Backspace, Home, End, Insert, Delete, PageUp
    and PageDown suppress the default and emit exactly these bytes as one
    chunk, and nothing else follows the opening calls. *)
Theorem editing_sequences (h : InputHandler.t) (c : Container) (e : KeyboardEvent)
        (out : jsstring) :
  isDisposed h = false ->
  customHandled h e = false ->
  extractModifiers e = Mods.NONE \/ extractModifiers e = Mods.SHIFT ->
  List.length (key e) <> 1%nat ->
  In (code e, out)
     [("Backspace", [127]); ("Home", [27; 91; 72]); ("End", [27; 91; 70]);
      ("Insert", [27; 91; 50; 126]); ("Delete", [27; 91; 51; 126]);
      ("PageUp", [27; 91; 53; 126]); ("PageDown", [27; 91; 54; 126])]%string%N ->
  keydown decode h c e
  = (Returned tt, prelude h e ++ [PreventDefault; OnData out]).
Proof.
  intros Hlive Hcustom Hmods Hlen Hin.
  assert (Hm : ctrlKey e = false /\ altKey e = false /\ metaKey e = false).
  { apply mods_none_or_shift. destruct Hmods as [-> | ->]; reflexivity. }
  destruct Hm as (Hc & Ha & Hs).
  apply Nat.eqb_neq in Hlen.
  destruct h as [enc onKey custom kd kp pl disposed].
  destruct e as [cd k ctrl alt shift meta].
  cbn in Hlive, Hlen, Hc, Ha, Hs, Hin. subst disposed ctrl alt meta.
  open_handler. unfold isPrintableCharacter, extractModifiers. cbn. rewrite Hlen.
  repeat (destruct Hin as [Hin | Hin];
          [ inversion Hin; subst cd out; clear Hin;
            destruct onKey, custom as [f|], shift; cbn in *;
            try rewrite Hcustom; reflexivity
          | ]).
  contradiction.
Qed.

(** ** The hint given to the encoder *)

Lemma lower_unit_not_upper (c : code_unit) :
  (c < 128)%N ->
  (lower_unit c < 128)%N /\ ~ (65 <= lower_unit c <= 90)%N.
Proof.
  unfold lower_unit. intros Hc.
  destruct (N.leb_spec 65 c), (N.leb_spec c 90); cbn; lia.
Qed.

(** X8.  The [utf8] hint given to the encoder, when there is one, is the
    key of the event in lower case: one ASCII unit that is not an
    upper-case letter.  No hint is given unless the key is one ASCII
    unit. *)
Theorem utf8_hint_is_lower_case_ascii (e : KeyboardEvent) :
  match utf8_hint e with
  | Some hint =>
    exists c, key e = [c] /\ (c < 128)%N /\ hint = [lower_unit c]
              /\ (lower_unit c < 128)%N /\ ~ (65 <= lower_unit c <= 90)%N
  | None => forall c, key e = [c] -> (128 <= c)%N
  end.
Proof.
  unfold utf8_hint. destruct (key e) as [|c [|c' rest]]; try discriminate.
  destruct (N.ltb_spec c 128) as [Hc | Hc].
  - exists c. destruct (@lower_unit_not_upper c Hc). auto.
  - intros c0 [= <-]. exact Hc.
Qed.


(** ** Events in sequence *)

Lemma more_nil (w : World) : more [] w = w.
Proof. destruct w. unfold more. cbn. now rewrite app_nil_r. Qed.

Lemma more_more (a b : list effect) (w : World) : more b (more a w) = more (a ++ b) w.
Proof. unfold more. cbn. now rewrite app_assoc. Qed.

Lemma handleKeyDown_appends (e : KeyboardEvent) (w : World) :
  handleKeyDown decode e w
  = (Returned tt, more (snd (keydown decode (this w) (container w) e)) w).
Proof.
  destruct w as [h c l]. unfold more. open_handler.
  split_cases; cbn; rewrite <- ?app_assoc, ?app_nil_r; reflexivity.
Qed.

Lemma handlePaste_appends (e : ClipboardEvent) (w : World) :
  handlePaste e w = (Returned tt, more (snd (paste (this w) (container w) e)) w).
Proof.
  destruct w as [h c l]. unfold more. open_handler.
  split_cases; cbn; rewrite <- ?app_assoc, ?app_nil_r; reflexivity.
Qed.


Lemma deliver_appends (ev : dom_event) (w : World) :
  listeners (container w) = [("keydown", HandleKeyDown); ("paste", HandlePaste)]%string ->
  dispatchEvent decode ev w
  = (Returned tt, more (event_effects decode (this w) (container w) ev) w).
Proof.
  intros Hl. unfold dispatchEvent, bind, gets. rewrite Hl.
  destruct ev as [e | e]; cbn [event_type filter fst snd String.eqb for_each invoke event_effects].
  - vm_compute String.eqb. cbn [filter for_each invoke fst snd]. unfold bind.
    rewrite handleKeyDown_appends. reflexivity.
  - vm_compute String.eqb. cbn [filter for_each invoke fst snd]. unfold bind.
    rewrite handlePaste_appends. reflexivity.
Qed.

(** X9.  On a container that holds the two listeners of one handler, a
    sequence of key-down and paste events never throws and never changes
    the handler or the container: what it does is, event by event, what
    each event does on the handler as it was at the start. *)
Theorem events_are_independent (w : World) (evs : list dom_event) :
  listeners (container w) = [("keydown", HandleKeyDown); ("paste", HandlePaste)]%string ->
  run decode (map Deliver evs) w
  = (Returned tt, more (flat_map (event_effects decode (this w) (container w)) evs) w).
Proof.
  intros Hl. revert w Hl. induction evs as [|ev evs IH]; intros w Hl.
  - cbn. now rewrite more_nil.
  - unfold run in *. cbn [map for_each exec]. unfold bind.
    rewrite (deliver_appends ev w Hl).
    rewrite (IH (more _ w) Hl). cbn [this container more flat_map].
    rewrite more_more. reflexivity.
Qed.

End InputHandlerFacts.

(* ===================================================================== *)
(** * More on the frames *)
(* ===================================================================== *)

Section RendererFacts.

Import CanvasRenderer RenderSession RenderFacts.
Local Open Scope Z_scope.

Lemma cells_from (cells : list Cell.t) (y : Z) (pre : list Cell.t) (rest : list Cell.t)
      (w : World) :
  cells = pre ++ rest ->
  for_each (map Z.of_nat (seq (List.length pre) (List.length rest))) (fun x =>
    match index cells x with
    | None => throw (TypeError "undefined is not an object (evaluating 'cell.width')")
    | Some cell => if Cell.width cell =? 0 then ret tt else renderCell cell x y
    end) w
  = (Returned tt, add_log (cell_draws (columns (List.length pre) rest) y) w).
Proof.
  revert pre w. induction rest as [|cell rest IH]; intros pre w Hc.
  - cbn. now rewrite add_log_nil.
  - cbn [List.length seq map for_each columns]. unfold bind at 1.
    rewrite index_of_nat.
    assert (Hn : nth_error cells (List.length pre) = Some cell).
    { subst cells. rewrite nth_error_app2 by lia. now rewrite Nat.sub_diag. }
    rewrite Hn.
    assert (Hc' : cells = (pre ++ [cell]) ++ rest) by (now rewrite <- app_assoc).
    specialize (IH (pre ++ [cell])).
    rewrite length_app in IH. cbn [List.length] in IH.
    replace (List.length pre + 1)%nat with (S (List.length pre)) in IH by lia.
    unfold cell_draws at 1. cbn [flat_map fst snd]. fold (cell_draws (columns (S (List.length pre)) rest) y).
    destruct (Cell.width cell =? 0).
    + cbn [ret app]. apply IH, Hc'.
    + unfold renderCell. rewrite emit_add_log, (IH _ Hc'), add_log_app. reflexivity.
Qed.

(** X10.  [renderLine] on a line of the buffer clears the line and then
    calls [renderCell] once for each cell whose width is not zero, from
    left to right, with the column of the cell and the row of the line;
    it draws no other cell. *)
Theorem renderLine_draws_each_cell_once (cells : list Cell.t) (y cols : Z) (w : World) :
  renderLine (Some cells) y cols w
  = (Returned tt, add_log (ClearLine y cols :: cell_draws (columns 0 cells) y) w)
  /\ forall cell x y',
       In (DrawCell cell x y') (cell_draws (columns 0 cells) y) ->
       Cell.width cell <> 0 /\ index cells x = Some cell /\ y' = y.
Proof.
  split.
  - unfold renderLine, bind. rewrite emit_add_log. unfold range.
    rewrite (@cells_from cells y [] cells _ eq_refl), add_log_app. reflexivity.
  - intros cell x y' Hin. unfold cell_draws in Hin. apply in_flat_map in Hin.
    destruct Hin as ([x0 c0] & Hcol & Hd). cbn [fst snd] in Hd.
    destruct (Z.eqb_spec (Cell.width c0) 0) as [|Hw]; [destruct Hd|].
    destruct Hd as [[= <- <- <-] | []].
    split; [exact Hw|]. split; [|reflexivity].
    assert (Hgen : forall n cs, In (x0, c0) (columns n cs) ->
                     exists i, x0 = Z.of_nat (n + i) /\ nth_error cs i = Some c0).
    { intros n cs. revert n. induction cs as [|c cs IH]; intros n; cbn; [contradiction|].
      intros [[= <- <-] | H].
      - exists 0%nat. split; [f_equal; lia | reflexivity].
      - destruct (IH _ H) as (i & -> & Hi). exists (S i). split; [f_equal; lia | exact Hi]. }
    destruct (Hgen _ _ Hcol) as (i & -> & Hi). cbn [plus]. now rewrite index_of_nat.
Qed.


(** ** The order of a frame *)

Lemma render_result (fa : bool) (w : World) :
  (fa || needsResize (this w) (ScreenBuffer.getDimensions (buffer w)) = true
   /\ exists pre calls r,
       render fa w
       = (Returned tt,
          {| this := set_lastCursorPosition (cursor_point w) r;
             window := window w; buffer := buffer w;
             log := log w ++ pre ++ calls ++ cursor_call w |})
       /\ (pre = [] \/ exists cw ch, pre = [FillBackground cw ch])
       /\ (r = this w \/ exists c, r = set_canvas c (this w))
       /\ painted calls = range (List.length (ScreenBuffer.getAllLines (buffer w)))
       /\ forallb is_line_call calls = true
       /\ needsResize r (ScreenBuffer.getDimensions (buffer w)) = false)
  \/ (fa = false
      /\ needsResize (this w) (ScreenBuffer.getDimensions (buffer w)) = false
      /\ forallb (is_row (buffer w)) (cursor_lines w) = true
      /\ exists ccalls calls,
          render false w
          = (Returned tt,
             {| this := set_lastCursorPosition (cursor_point w) (this w);
                window := window w; buffer := ScreenBuffer.clearDirty (buffer w);
                log := log w ++ ccalls ++ calls ++ cursor_call w ++ [ClearDirty] |})
          /\ painted ccalls = cursor_lines w
          /\ forallb is_line_call ccalls = true
          /\ painted calls
             = filter (ScreenBuffer.isDirty (buffer w))
                      (range (List.length (ScreenBuffer.getAllLines (buffer w))))
          /\ forallb is_line_call calls = true)
  \/ (fa = false
      /\ needsResize (this w) (ScreenBuffer.getDimensions (buffer w)) = false
      /\ forallb (is_row (buffer w)) (cursor_lines w) = false
      /\ exists ccalls,
          render false w
          = (Thrown (TypeError "undefined is not an object (evaluating 'line.length')"),
             add_log ccalls w)
          /\ forallb is_line_call ccalls = true).
Proof.
  destruct (fa || needsResize (this w) (ScreenBuffer.getDimensions (buffer w))) eqn:Hf.
  - left. split; [reflexivity|]. apply render_forced, Hf.
  - apply orb_false_elim in Hf. destruct Hf as [-> Hr].
    destruct (forallb (is_row (buffer w)) (cursor_lines w)) eqn:Hrows.
    + right. left. repeat split; auto. apply render_partial; assumption.
    + right. right. repeat split; auto. apply render_throws; assumption.
Qed.

(** X13.  In a frame that completes, the cursor is drawn after every line:
    no cursor is drawn before, and nothing follows it but the clearing of
    the dirty flags. *)
Theorem cursor_is_painted_last (forceAll : bool) (w : World) :
  completes forceAll w ->
  exists before after,
    render forceAll w
    = (Returned tt,
       {| this := this (snd (render forceAll w));
          window := window w;
          buffer := buffer (snd (render forceAll w));
          log := log w ++ before ++ cursor_call w ++ after |})
    /\ existsb is_DrawCursor before = false
    /\ (after = [] \/ after = [ClearDirty]).
Proof.
  intros Hc.
  destruct (render_result forceAll w)
    as [(Hf & pre & calls & r & Hrun & Hpre & _ & _ & Hl & _)
       | [(-> & Hr & _ & cc & calls & Hrun & _ & Hcc & _ & Hl)
         | (-> & Hr & Hrows & _)]].
  - exists (pre ++ calls), []. rewrite Hrun. cbn [snd this buffer].
    split; [now rewrite app_nil_r, <- app_assoc|]. split; [|now left].
    rewrite existsb_app, (@line_calls_no_DrawCursor _ Hl).
    destruct Hpre as [-> | (cw & ch & ->)]; reflexivity.
  - exists (cc ++ calls), [ClearDirty]. rewrite Hrun. cbn [snd this buffer].
    split; [now rewrite <- !app_assoc|]. split; [|now right].
    rewrite existsb_app, (@line_calls_no_DrawCursor _ Hl), (@line_calls_no_DrawCursor _ Hcc).
    reflexivity.
  - destruct Hc as [Hc | Hc]; cbn in Hc; congruence.
Qed.

(** X14.  A partial pass that throws on a line the buffer no longer has
    changes neither the renderer nor the buffer, so the next partial pass
    throws again; a full pass returns and brings the remembered cursor
    position back to the cursor. *)
Theorem stale_line_keeps_failing (w : World) :
  needsResize (this w) (ScreenBuffer.getDimensions (buffer w)) = false ->
  forallb (is_row (buffer w)) (cursor_lines w) = false ->
  let w1 := snd (render false w) in
  this w1 = this w /\ buffer w1 = buffer w
  /\ fst (render false w1)
     = Thrown (TypeError "undefined is not an object (evaluating 'line.length')")
  /\ fst (render true w1) = Returned tt
  /\ lastCursorPosition (this (snd (render true w1))) = cursor_point w.
Proof.
  intros Hr Hrows w1.
  destruct (@render_throws w Hr Hrows) as (cc & Hrun & _).
  assert (H1 : this w1 = this w /\ buffer w1 = buffer w)
    by (subst w1; rewrite Hrun; split; reflexivity).
  destruct H1 as [Ht Hb]. split; [exact Ht|]. split; [exact Hb|].
  assert (Hr1 : needsResize (this w1) (ScreenBuffer.getDimensions (buffer w1)) = false)
    by (now rewrite Ht, Hb).
  assert (Hrows1 : forallb (is_row (buffer w1)) (cursor_lines w1) = false).
  { unfold cursor_lines in *. now rewrite Ht, Hb. }
  destruct (@render_throws w1 Hr1 Hrows1) as (cc1 & -> & _).
  split; [reflexivity|].
  destruct (@render_forced true w1 eq_refl) as (pre & calls & r & -> & _).
  split; [reflexivity|]. cbn. unfold cursor_point. now rewrite Hb.
Qed.


(** ** The blink timer *)

(** X15.  Whatever public methods are called on a new renderer, the window
    holds no timer but the one whose handle the renderer keeps: at most
    one, and only while blinking is enabled. *)
Theorem one_timer_at_most
        (cv : Canvas.t) (options : RendererOptions) (dpr : Z)
        (measured : FontMetrics.t) (handle : nat) (buf : ScreenBuffer.t)
        (ops : list op) :
  existsb is_private ops = false ->
  let w := run ops (create cv options dpr measured handle buf) in
  Window.timers (window w)
  = match cursorBlinkInterval (this w) with Some id => [id] | None => [] end
  /\ (cursorBlinkInterval (this w) <> None -> cursorBlink (this w) = true)
  /\ (List.length (Window.timers (window w)) <= 1)%nat.
Proof.
  intros Hpub w.
  assert (Hw : owns_timer w)
    by (apply run_owns_timer; [exact Hpub | apply create_owns_timer]).
  destruct Hw as (Ht & _ & Hb). split; [exact Ht|]. split.
  - intros Hn. destruct (cursorBlink (this w)); [reflexivity|].
    exfalso. apply Hn, Hb. reflexivity.
  - rewrite Ht. destruct (cursorBlinkInterval (this w)); cbn; lia.
Qed.


End RendererFacts.

(* ===================================================================== *)
(** * The colours and the paint of a cell *)
(* ===================================================================== *)

Section ColorFacts.

Import Colors.
Local Open Scope Z_scope.

Lemma over_defined (base : option string) (g : slot) :
  base <> None -> defined g = true -> over base g <> None.
Proof. destruct g; cbn; congruence. Qed.

(** X17.  [setTheme] replaces the theme, it does not amend it: the result
    is the one of a constructor given the same theme, whatever was set
    before; the palette is rebuilt from the new theme and has sixteen
    entries; an empty theme brings the defaults back.  If no property of
    the given theme is [undefined], every colour has a CSS string. *)
Theorem setTheme_replaces_the_theme (given : ITheme.t) (self : t) :
  let self' := setTheme given self in
  coherent self'
  /\ List.length (palette self') = 16%nat
  /\ self' = create (Some given)
  /\ (forall earlier, setTheme given (setTheme earlier self) = self')
  /\ setTheme no_theme self = create None
  /\ (well_given given = true ->
      forall color isBackground, colorToCSS self' color isBackground <> None).
Proof.
  cbn. repeat split.
  intros Hg color bg.
  unfold well_given in Hg. repeat (apply andb_prop in Hg; destruct Hg as [Hg ?]).
  destruct color as [| i | r g b]; cbn.
  - destruct bg; (apply over_defined; [cbn; discriminate | assumption]).
  - rewrite Z.geb_leb.
    destruct (Z.leb_spec 0 i) as [Hlo | Hlo]; cbn [andb];
      [|destruct bg; (apply over_defined; [cbn; discriminate | assumption])].
    destruct (Z.ltb_spec i 16) as [Hhi | Hhi]; cbn [andb];
      [|destruct bg; (apply over_defined; [cbn; discriminate | assumption])].
    unfold index. replace (i <? 0) with false by (symmetry; apply Z.ltb_ge; lia).
    assert (Hi : (Z.to_nat i < 16)%nat) by lia.
    generalize dependent (Z.to_nat i). intros n Hn.
    do 16 (destruct n as [|n];
           [cbn; apply over_defined; [cbn; discriminate | assumption]|]).
    lia.
  - discriminate.
Qed.

(** X18.  While the palette is the one built from the theme, a palette
    colour from 0 to 15 is the ANSI colour of that index in the theme; any
    other index, negative or from 16 on, gives the default foreground or
    background. *)
Theorem palette_colours (self : t) (i : Z) (isBackground : bool) :
  coherent self ->
  colorToCSS self (ColorPalette i) isBackground
  = if (0 <=? i) && (i <? 16)
    then nth (Z.to_nat i) (ansi (theme self)) None
    else colorToCSS self ColorDefault isBackground.
Proof.
  unfold coherent, colorToCSS. intros ->.
  change (Z.of_nat (List.length (ansi (theme self)))) with 16.
  rewrite Z.geb_leb.
  destruct (Z.leb_spec 0 i) as [H0 | H0]; [|reflexivity].
  destruct (Z.ltb_spec i 16) as [H1 | H1]; [|reflexivity]. cbn [andb].
  unfold index. replace (i <? 0) with false by (symmetry; apply Z.ltb_ge; lia).
  assert (Hi : (Z.to_nat i < 16)%nat) by lia.
  generalize dependent (Z.to_nat i). intros n Hn.
  do 16 (destruct n as [|n]; [reflexivity|]). lia.
Qed.


End ColorFacts.

Section CellPaintFacts.

Import Colors CellPaint.
Local Open Scope Z_scope.

Ltac paint_cell :=
  unfold paints, context_after, renderCell, decoration, assign, draw, when, bind,
    modify, ret; cbn.

(** X20.  An invisible cell draws at most its background: no glyph and no
    decoration, and the font and the opacity of the context are left as
    they were. *)
Theorem invisible_cell_draws_no_glyph (self : Settings) (cell : Cell.t) (x y : Z)
        (c : Context) :
  Cell.invisible cell = true ->
  forallb is_Rect (paints self cell x y c) = true
  /\ (List.length (paints self cell x y c) <= 1)%nat
  /\ font (context_after self cell x y c) = font c
  /\ globalAlpha (context_after self cell x y c) = globalAlpha c.
Proof.
  intros Hi. paint_cell. rewrite Hi.
  destruct (negb _ || _); cbn; repeat split; auto.
Qed.

(** X21.  An inverse cell is painted as the cell with its two colours
    exchanged, except that its background is always filled: when the
    foreground of the cell is the default colour, the rectangle is filled
    with the background of the theme first. *)
Theorem inverse_exchanges_the_colours (self : Settings) (cell : Cell.t) (x y : Z)
        (c : Context) :
  Cell.inverse cell = true ->
  paints self cell x y c
  = List.app
      (if is_default (Cell.fg cell)
       then [{| what := Rect (x * FontMetrics.width (metrics self))
                             (y * FontMetrics.height (metrics self))
                             (FontMetrics.width (metrics self) * Cell.width cell)
                             (FontMetrics.height (metrics self));
                drawn_with :=
                  set_fillStyle (Theme.background (theme (colors self))) c |}]
       else [])
      (paints self (exchanged cell) x y c).
Proof.
  intros Hi. paint_cell. rewrite Hi.
  destruct (Cell.fg cell) as [| i | r g b] eqn:Hfg; cbn;
    destruct (Cell.invisible cell), (Cell.italic cell), (Cell.bold cell),
      (Cell.faint cell), (Cell.underline cell), (Cell.strikethrough cell);
    reflexivity.
Qed.

(** X22.  A visible cell with default colours draws its glyph in the
    foreground of the theme whether it is inverse or not; inverse only adds
    a rectangle in the background of the theme. *)
Theorem inverse_of_default_colours (self : Settings) (cell : Cell.t) (x y : Z)
        (c : Context) :
  Cell.fg cell = ColorDefault -> Cell.bg cell = ColorDefault ->
  Cell.invisible cell = false ->
  map (fun p => fillStyle (drawn_with p)) (filter is_Text (paints self cell x y c))
  = [Theme.foreground (theme (colors self))]
  /\ map (fun p => fillStyle (drawn_with p)) (filter is_Rect (paints self cell x y c))
     = if Cell.inverse cell then [Theme.background (theme (colors self))] else [].
Proof.
  intros Hfg Hbg Hv. paint_cell. rewrite Hfg, Hbg, Hv.
  destruct (Cell.inverse cell), (Cell.italic cell), (Cell.bold cell),
    (Cell.faint cell), (Cell.underline cell), (Cell.strikethrough cell);
    split; reflexivity.
Qed.

(** X23.  From a context of full opacity, [renderCell] leaves the context
    at full opacity; only the glyph of a faint cell is drawn at one half,
    its background and its decorations are not. *)
Theorem faint_is_scoped_to_the_glyph (self : Settings) (cell : Cell.t) (x y : Z)
        (c : Context) :
  globalAlpha c = 1%Q ->
  globalAlpha (context_after self cell x y c) = 1%Q
  /\ forall p, In p (paints self cell x y c) ->
       globalAlpha (drawn_with p)
       = if is_Text p && Cell.faint cell then (1 # 2)%Q else 1%Q.
Proof.
  intros Ha. paint_cell.
  destruct (negb _ || _), (Cell.invisible cell), (Cell.italic cell), (Cell.bold cell),
    (Cell.faint cell), (Cell.underline cell), (Cell.strikethrough cell);
    cbn; (split; [assumption || reflexivity|]); intros p Hp;
    repeat (destruct Hp as [<- | Hp]; [cbn; assumption || reflexivity|]);
    destruct Hp.
Qed.

(** X24.  A visible cell draws, in this order, its background (if any),
    its glyph at the baseline in the foreground colour, and one segment
    for each of underline and strikethrough.  Every segment is stroked in
    the colour of the glyph, one pixel wide, over the width of the
    cell. *)
Theorem decorations_follow_the_glyph (self : Settings) (cell : Cell.t) (x y : Z)
        (c : Context) :
  Cell.invisible cell = false ->
  let colour :=
    colorToCSS (colors self)
               (if Cell.inverse cell then Cell.bg cell else Cell.fg cell) false in
  (exists before after,
      paints self cell x y c = List.app before after
      /\ forallb is_Rect before = true
      /\ (List.length before <= 1)%nat
      /\ map (fun p => (what p, fillStyle (drawn_with p)))
             (firstn 1 after)
         = [(Text (Cell.char cell) (x * FontMetrics.width (metrics self))
                  (y * FontMetrics.height (metrics self)
                   + FontMetrics.baseline (metrics self)),
             colour)]
      /\ forallb is_Segment (skipn 1 after) = true
      /\ List.length (skipn 1 after)
         = ((if Cell.underline cell then 1 else 0)
            + (if Cell.strikethrough cell then 1 else 0))%nat)
  /\ forall p, In p (paints self cell x y c) -> is_Segment p = true ->
       strokeStyle (drawn_with p) = colour
       /\ lineWidth (drawn_with p) = 1
       /\ exists at_y,
           what p = Segment (x * FontMetrics.width (metrics self)) at_y
                            (x * FontMetrics.width (metrics self)
                             + FontMetrics.width (metrics self) * Cell.width cell).
Proof.
  intros Hv colour. subst colour. paint_cell. rewrite Hv.
  destruct (negb _ || _), (Cell.italic cell), (Cell.bold cell),
    (Cell.faint cell), (Cell.underline cell), (Cell.strikethrough cell);
    cbn;
    (split;
     [ match goal with
       | |- exists before after, ?r :: ?l = _ /\ _ =>
         first [ exists [r], l; repeat split; reflexivity || (cbn; lia)
               | exists [], (r :: l); repeat split; reflexivity || (cbn; lia) ]
       end
     | intros p Hp Hs;
       repeat (destruct Hp as [<- | Hp];
               [first [discriminate Hs | cbn; repeat split; eexists; reflexivity]|]);
       destruct Hp ]).
Qed.

End CellPaintFacts.

Section RgbFacts.

Import Colors.
Local Open Scope string_scope.

Lemma free_uint (a : ascii) (d : Decimal.uint) :
  (a = "," \/ a = ")")%char -> free a (NilEmpty.string_of_uint d) = true.
Proof.
  intros Ha. induction d; cbn; try rewrite IHd; try reflexivity;
    destruct Ha as [-> | ->]; reflexivity.
Qed.

Lemma free_show (a : ascii) (n : Z) :
  (a = "," \/ a = ")")%char -> free a (show n) = true.
Proof.
  intros Ha. unfold show.
  assert (Hu : forall d, free a (NilZero.string_of_uint d) = true).
  { intros d. destruct d; try (apply free_uint; exact Ha).
    destruct Ha as [-> | ->]; reflexivity. }
  destruct (Z.to_int n); cbn [NilZero.string_of_int]; [apply Hu|].
  cbn [free]. rewrite Hu. destruct Ha as [-> | ->]; reflexivity.
Qed.

Lemma split_at (a : ascii) (s1 s2 r1 r2 : string) :
  free a s1 = true -> free a s2 = true ->
  s1 ++ String a r1 = s2 ++ String a r2 -> s1 = s2 /\ r1 = r2.
Proof.
  revert s2. induction s1 as [|c s1 IH]; intros [|c2 s2] H1 H2 H; cbn in *.
  - injection H as ->. auto.
  - injection H as <- _. rewrite Ascii.eqb_refl in H2. discriminate.
  - injection H as -> _. rewrite Ascii.eqb_refl in H1. discriminate.
  - injection H as -> H.
    apply andb_prop in H1, H2. destruct (IH s2) as [-> ->]; tauto.
Qed.

Lemma show_injective (a b : Z) : show a = show b -> a = b.
Proof.
  unfold show. intros H.
  assert (Hn : forall n, Z.to_int n <> Decimal.Pos Decimal.Nil
                         /\ Z.to_int n <> Decimal.Neg Decimal.Nil).
  { intros n. split; intros E; assert (E' := f_equal Z.of_int E);
      rewrite of_to in E'; cbn in E'; subst n; discriminate E. }
  apply (f_equal NilZero.int_of_string) in H.
  rewrite !NilZero.isi in H by apply Hn.
  injection H as H. apply (f_equal Z.of_int) in H. now rewrite !of_to in H.
Qed.

(** X19.  The CSS string of an RGB colour does not depend on the theme or
    on the role of the colour, and two RGB colours have the same string
    only if they have the same three components. *)
Theorem rgb_colours_do_not_collide (self self' : t) (r g b r' g' b' : Z)
        (isBackground isBackground' : bool) :
  colorToCSS self (ColorRgb r g b) isBackground
  = colorToCSS self' (ColorRgb r' g' b') isBackground'
  <-> r = r' /\ g = g' /\ b = b'.
Proof.
  split; [|intros (-> & -> & ->); reflexivity].
  cbn [colorToCSS]. intros H. injection H as H.
  apply split_at in H; try (apply free_show; auto). destruct H as [Hr H].
  injection H as H.
  apply split_at in H; try (apply free_show; auto). destruct H as [Hg H].
  injection H as H.
  assert (Hb : show b = show b').
  { apply (@split_at ")"%char _ _ "" ""); try (apply free_show; auto). exact H. }
  auto using show_injective.
Qed.

End RgbFacts.

(* ===================================================================== *)
(** * More runs *)
(* ===================================================================== *)

Section InputRuns.

Import InputHandler InputSession InputFacts.

Lemma raw_key_comes_first_witness :
  let w := create quiet_encoder true None mock_container in
  let e := createKeyEvent "KeyA" (lit "a") false false false false in
  exists rest,
    snd (keydown ascii_decode (this w) (container w) e) = OnKey (key e) :: rest
    /\ existsb is_OnKey rest = false.
Proof.
  apply (proj1 (@raw_key_comes_first ascii_decode
                  (this (create quiet_encoder true None mock_container))
                  (container (create quiet_encoder true None mock_container))
                  (createKeyEvent "KeyA" (lit "a") false false false false)));
    reflexivity.
Defined.

Lemma custom_handler_consumes_witness :
  let w := create quiet_encoder true (Some (fun e => String.eqb (code e) "F5")) mock_container in
  let e := createKeyEvent "F5" (lit "F5") false false false false in
  keydown ascii_decode (this w) (container w) e
  = (Returned tt, [OnKey (lit "F5"); CustomKeyEventHandler; PreventDefault]).
Proof.
  apply (@custom_handler_consumes ascii_decode
           (this (create quiet_encoder true
                         (Some (fun e => String.eqb (code e) "F5")) mock_container))
           (container (create quiet_encoder true
                              (Some (fun e => String.eqb (code e) "F5")) mock_container))
           (createKeyEvent "F5" (lit "F5") false false false false));
    reflexivity.
Defined.

Lemma unmapped_key_is_ignored_witness :
  let w := fresh quiet_encoder in
  let e := createKeyEvent "AudioVolumeUp" (lit "AudioVolumeUp") false false false false in
  keydown ascii_decode (this w) (container w) e = (Returned tt, []).
Proof.
  apply (@unmapped_key_is_ignored ascii_decode (this (fresh quiet_encoder))
           (container (fresh quiet_encoder))
           (createKeyEvent "AudioVolumeUp" (lit "AudioVolumeUp") false false false false));
    reflexivity.
Defined.

Lemma editing_sequences_witness :
  let w := fresh quiet_encoder in
  let e := createKeyEvent "Delete" (lit "Delete") false false true false in
  keydown ascii_decode (this w) (container w) e
  = (Returned tt, prelude (this w) e ++ [PreventDefault; OnData [27; 91; 51; 126]%N]).
Proof.
  apply (@editing_sequences ascii_decode (this (fresh quiet_encoder))
           (container (fresh quiet_encoder))
           (createKeyEvent "Delete" (lit "Delete") false false true false)).
  - reflexivity.
  - reflexivity.
  - right. reflexivity.
  - vm_compute. discriminate.
  - do 4 right. left. reflexivity.
Defined.

Lemma events_are_independent_witness :
  let w := fresh quiet_encoder in
  let evs := [KeydownEvent (createKeyEvent "KeyL" (lit "l") false false false false);
              PasteEvent (createClipboardEvent (Some (lit "ls")));
              KeydownEvent (createKeyEvent "Enter" (lit "Enter") false false false false)] in
  run ascii_decode (map Deliver evs) w
  = (Returned tt,
     more (flat_map (event_effects ascii_decode (this w) (container w)) evs) w).
Proof.
  apply (@events_are_independent ascii_decode (fresh quiet_encoder)). reflexivity.
Defined.

End InputRuns.

Section RendererRuns.

Import CanvasRenderer RenderSession RenderFacts.
Local Open Scope Z_scope.

Lemma cursor_is_painted_last_witness :
  let w := run [Render false; Write (grid 80 24 3 7 (Z.eqb 2))] started in
  exists before after,
    render false w
    = (Returned tt,
       {| this := this (snd (render false w));
          window := window w;
          buffer := buffer (snd (render false w));
          log := log w ++ before ++ cursor_call w ++ after |})
    /\ existsb is_DrawCursor before = false
    /\ (after = [] \/ after = [ClearDirty]).
Proof.
  apply (@cursor_is_painted_last false
           (run [Render false; Write (grid 80 24 3 7 (Z.eqb 2))] started)).
  right. vm_compute. reflexivity.
Defined.

Lemma stale_line_keeps_failing_witness :
  let w := run (shrink clean) started in
  let w1 := snd (render false w) in
  this w1 = this w /\ buffer w1 = buffer w
  /\ fst (render false w1)
     = Thrown (TypeError "undefined is not an object (evaluating 'line.length')")
  /\ fst (render true w1) = Returned tt
  /\ lastCursorPosition (this (snd (render true w1))) = cursor_point w.
Proof.
  apply (@stale_line_keeps_failing (run (shrink clean) started)).
  - vm_compute. reflexivity.
  - vm_compute. reflexivity.
Defined.

Lemma one_timer_at_most_witness :
  let w := run [SetCursorBlink true; Render false; SetCursorBlink true; Tick 1%nat;
                SetCursorBlink false; SetCursorBlink true]
               (create new_canvas no_options 1 metrics_9x17 1%nat (grid 80 24 0 0 clean)) in
  Window.timers (window w)
  = match cursorBlinkInterval (this w) with Some id => [id] | None => [] end
  /\ (cursorBlinkInterval (this w) <> None -> cursorBlink (this w) = true)
  /\ (List.length (Window.timers (window w)) <= 1)%nat.
Proof.
  apply (@one_timer_at_most new_canvas no_options 1 metrics_9x17 1%nat
           (grid 80 24 0 0 clean)
           [SetCursorBlink true; Render false; SetCursorBlink true; Tick 1%nat;
            SetCursorBlink false; SetCursorBlink true]).
  reflexivity.
Defined.


End RendererRuns.

Section PaintRuns.

Import Colors CellPaint.
Local Open Scope Z_scope.

Lemma palette_colours_witness :
  colorToCSS (create None) (ColorPalette 9) false
  = if (0 <=? 9) && (9 <? 16)
    then nth (Z.to_nat 9) (ansi (theme (create None))) None
    else colorToCSS (create None) ColorDefault false.
Proof.
  apply (@palette_colours (create None) 9 false). reflexivity.
Defined.

Lemma invisible_cell_draws_no_glyph_witness :
  let cell := styled ColorDefault (ColorPalette 4) true false false true false in
  forallb is_Rect (paints default_settings cell 3 2 new_context) = true
  /\ (List.length (paints default_settings cell 3 2 new_context) <= 1)%nat
  /\ font (context_after default_settings cell 3 2 new_context) = font new_context
  /\ globalAlpha (context_after default_settings cell 3 2 new_context)
     = globalAlpha new_context.
Proof.
  apply (@invisible_cell_draws_no_glyph default_settings
           (styled ColorDefault (ColorPalette 4) true false false true false)
           3 2 new_context).
  reflexivity.
Defined.

Lemma inverse_exchanges_the_colours_witness :
  let cell := styled (ColorPalette 1) ColorDefault true false false false true in
  paints default_settings cell 3 2 new_context
  = List.app
      (if is_default (Cell.fg cell)
       then [{| what := Rect (3 * FontMetrics.width (metrics default_settings))
                             (2 * FontMetrics.height (metrics default_settings))
                             (FontMetrics.width (metrics default_settings) * Cell.width cell)
                             (FontMetrics.height (metrics default_settings));
                drawn_with :=
                  set_fillStyle (Theme.background (theme (colors default_settings)))
                                new_context |}]
       else [])
      (paints default_settings (exchanged cell) 3 2 new_context).
Proof.
  apply (@inverse_exchanges_the_colours default_settings
           (styled (ColorPalette 1) ColorDefault true false false false true)
           3 2 new_context).
  reflexivity.
Defined.

Lemma inverse_of_default_colours_witness :
  let cell := styled ColorDefault ColorDefault false false false false true in
  map (fun p => fillStyle (drawn_with p))
      (filter is_Text (paints default_settings cell 3 2 new_context))
  = [Theme.foreground (theme (colors default_settings))]
  /\ map (fun p => fillStyle (drawn_with p))
         (filter is_Rect (paints default_settings cell 3 2 new_context))
     = if Cell.inverse cell then [Theme.background (theme (colors default_settings))]
       else [].
Proof.
  apply (@inverse_of_default_colours default_settings
           (styled ColorDefault ColorDefault false false false false true)
           3 2 new_context); reflexivity.
Defined.

Lemma faint_is_scoped_to_the_glyph_witness :
  let cell := styled ColorDefault ColorDefault true false true false false in
  globalAlpha (context_after default_settings cell 3 2 new_context) = 1%Q
  /\ forall p, In p (paints default_settings cell 3 2 new_context) ->
       globalAlpha (drawn_with p)
       = if is_Text p && Cell.faint cell then (1 # 2)%Q else 1%Q.
Proof.
  apply (@faint_is_scoped_to_the_glyph default_settings
           (styled ColorDefault ColorDefault true false true false false)
           3 2 new_context).
  reflexivity.
Defined.

Lemma decorations_follow_the_glyph_witness :
  let cell := styled (ColorRgb 255 128 0) ColorDefault true true false false false in
  let colour := Some "rgb(255, 128, 0)"%string in
  (exists before after,
      paints default_settings cell 3 2 new_context = List.app before after
      /\ forallb is_Rect before = true
      /\ (List.length before <= 1)%nat
      /\ map (fun p => (what p, fillStyle (drawn_with p))) (firstn 1 after)
         = [(Text (Cell.char cell) 27 48, colour)]
      /\ forallb is_Segment (skipn 1 after) = true
      /\ List.length (skipn 1 after) = 2%nat)
  /\ forall p, In p (paints default_settings cell 3 2 new_context) ->
       is_Segment p = true ->
       strokeStyle (drawn_with p) = colour
       /\ lineWidth (drawn_with p) = 1
       /\ exists at_y, what p = Segment 27 at_y 36.
Proof.
  apply (@decorations_follow_the_glyph default_settings
           (styled (ColorRgb 255 128 0) ColorDefault true true false false false)
           3 2 new_context).
  reflexivity.
Defined.

End PaintRuns.
